(** * conda_build/os_utils/liefldd.py: shared-library linkage resolution

    A shallow embedding of the linkage-resolution engine of
    [conda_build/os_utils/liefldd.py]: the token tables
    ([from_os_varnames], [to_os_varnames]), the search-path collection
    ([get_rpaths]), the path resolver ([_get_resolved_location]) and the
    worklist walker ([inspect_linkages_lief], [get_linkages]).

    Python strings are [string]; the result set and the visited set are
    [gset string]; the two dictionaries of the walker are [gmap]s.  The
    file system and the LIEF parser are an explicit [World]; exceptions
    and possible non-termination are an explicit [outcome]. *)

From Stdlib Require Import Ascii String.
From stdpp Require Import base option list gmap strings.

Local Open Scope string_scope.
Local Open Scope list_scope.

(** ** Python [str] methods used by the module *)

Module Py.

(** [s.startswith(p)] *)
Definition startswith (s p : string) : bool := String.prefix p s.

(** [sub in s] *)
Fixpoint contains (sub s : string) : bool :=
  String.prefix sub s ||
  match s with
  | EmptyString => false
  | String _ s' => contains sub s'
  end.

(** [s.endswith(p)]: some suffix of [s] is [p]. *)
Fixpoint endswith (s p : string) : bool :=
  String.eqb s p ||
  match s with
  | EmptyString => false
  | String _ s' => endswith s' p
  end.

(** [s[:-1]] *)
Fixpoint drop_last (s : string) : string :=
  match s with
  | EmptyString => EmptyString
  | String _ EmptyString => EmptyString
  | String c s' => String c (drop_last s')
  end.

(** [s.replace(old, new)] for a non-empty [old]: the occurrences are
    found left to right and do not overlap.  [skip] counts the characters
    of a matched occurrence still to be passed over. *)
Fixpoint replace_from (old new : string) (skip : nat) (s : string) : string :=
  match s with
  | EmptyString => EmptyString
  | String c s' =>
      match skip with
      | S k => replace_from old new k s'
      | O =>
          if String.prefix old s
          then new +:+ replace_from old new (String.length old - 1) s'
          else String c (replace_from old new 0 s')
      end
  end.

(** With an empty [old] Python puts [new] before every character and at
    the end. *)
Fixpoint intersperse (new s : string) : string :=
  match s with
  | EmptyString => new
  | String c s' => new +:+ String c (intersperse new s')
  end.

Definition replace (s old new : string) : string :=
  match old with
  | EmptyString => intersperse new s
  | _ => replace_from old new 0 s
  end.

(** [s.split(sep)] for a one-character separator; never empty. *)
Fixpoint split (sep : ascii) (s : string) : list string :=
  match s with
  | EmptyString => [EmptyString]
  | String c s' =>
      if Ascii.eqb c sep then EmptyString :: split sep s'
      else match split sep s' with
           | h :: t => String c h :: t
           | [] => [String c EmptyString]
           end
  end.

(** [s.rstrip(c)] for a one-character set. *)
Fixpoint rstrip (c : ascii) (s : string) : string :=
  match s with
  | EmptyString => EmptyString
  | String a s' =>
      match rstrip c s' with
      | EmptyString => if Ascii.eqb a c then EmptyString else String a EmptyString
      | r => String a r
      end
  end.

(** [sep.join(parts)] *)
Fixpoint join (sep : string) (parts : list string) : string :=
  match parts with
  | [] => EmptyString
  | [p] => p
  | p :: ps => p +:+ sep +:+ join sep ps
  end.

(** Truth value of a string, and of a string-or-[None]. *)
Definition truthy (s : string) : bool := negb (String.eqb s EmptyString).

Definition truthy_opt (o : option string) : bool :=
  match o with
  | Some s => truthy s
  | None => false
  end.

End Py.

(** ** [os.path] (the POSIX flavour, separator [/]) *)

Module OsPath.

Definition sep : string := "/".

(** [posixpath.join(a, b)] *)
Definition join2 (a b : string) : string :=
  if Py.startswith b "/" then b
  else if negb (Py.truthy a) || Py.endswith a "/" then a +:+ b
  else a +:+ "/" +:+ b.

(** [posixpath.join(a, *p)] *)
Definition join (a : string) (p : list string) : string :=
  fold_left join2 p a.

(** [p[:p.rfind('/') + 1]] *)
Fixpoint head (p : string) : string :=
  match p with
  | EmptyString => EmptyString
  | String c p' => if Py.contains "/" p then String c (head p') else EmptyString
  end.

(** [head == '/' * len(head)] *)
Fixpoint all_slashes (s : string) : bool :=
  match s with
  | EmptyString => true
  | String c s' => Ascii.eqb c "/"%char && all_slashes s'
  end.

(** [posixpath.dirname(p)] *)
Definition dirname (p : string) : string :=
  let h := head p in
  if Py.truthy h && negb (all_slashes h) then Py.rstrip "/"%char h else h.

End OsPath.

(** ** Results of Python code: a value, an exception, or no answer yet *)

Inductive exn : Set :=
  | AttributeError   (* attribute of [None], of [[]] or of a builtin *)
  | KeyError         (* missing dictionary key *)
  | ParserError.     (* raised by [lief.parse] *)

Inductive outcome (A : Type) : Type :=
  | Returns (a : A)
  | Raises (e : exn)
  | OutOfFuel.       (* the loop did not finish within the fuel given *)

Arguments Returns {A} a.
Arguments Raises {A} e.
Arguments OutOfFuel {A}.

Global Instance outcome_ret : MRet outcome := @Returns.

Global Instance outcome_bind : MBind outcome := fun A B k m =>
  match m with
  | Returns a => k a
  | Raises e => Raises e
  | OutOfFuel => OutOfFuel
  end.

(** A Python value that is a [bool] or a [str] (the third component of the
    resolver's result is [exists and sysroot and ...]). *)
Inductive pyval : Set :=
  | PyBool (b : bool)
  | PyStr (s : string).

Definition pyval_truthy (v : pyval) : bool :=
  match v with
  | PyBool b => b
  | PyStr s => Py.truthy s
  end.

(** [a and b] where [a] is a [bool]. *)
Definition py_and (a : bool) (b : pyval) : pyval :=
  if a then b else PyBool false.

(** ** The parsed binary, as LIEF presents it *)

(** [lief.EXE_FORMATS] of a parsed binary. *)
Inductive exe_format : Set := ELF | MACHO | PE.

(** [lief.ELF.ELF_CLASS] *)
Inductive elf_class : Set := CLASSNONE | CLASS32 | CLASS64.

(** An entry of the ELF dynamic section, by [lief.ELF.DYNAMIC_TAGS]. *)
Inductive dynamic_entry : Set :=
  | DT_RUNPATH (runpath : string)
  | DT_RPATH (rpath : string)
  | DT_SONAME (name : string)
  | DT_NEEDED (name : string)
  | DT_OTHER.

(** A Mach-O load command, by [lief.MachO.LOAD_COMMAND_TYPES]. *)
Inductive load_command : Set :=
  | LC_ID_DYLIB (name : string)
  | LC_RPATH (path : string)
  | LC_LOAD_DYLIB (name : string)
  | LC_OTHER.

Record Binary : Set := {
  format : exe_format;
  type : elf_class;                       (* ELF *)
  name : string;                          (* the path it was parsed from *)
  libraries : list string;                (* names of the imported libraries *)
  dynamic_entries : list dynamic_entry;   (* ELF *)
  commands : list load_command;           (* Mach-O *)
  header_characteristics : Z;             (* PE *)
}.

Global Instance exe_format_eq_dec : EqDecision exe_format.
Proof. solve_decision. Defined.
Global Instance elf_class_eq_dec : EqDecision elf_class.
Proof. solve_decision. Defined.

(** [lief.PE.HEADER_CHARACTERISTICS.DLL] (IMAGE_FILE_DLL). *)
Definition HEADER_CHARACTERISTICS_DLL : Z := 8192.

(** [binary.has_rpath]: some load command is an [LC_RPATH]. *)
Definition has_rpath (b : Binary) : bool :=
  existsb (fun c => match c with LC_RPATH _ => true | _ => false end) (commands b).

(** What [binary] can be bound to: a parsed binary, [None], or the [[]] that
    [ensure_binary] returns for a missing file. *)
Inductive pyobj : Set :=
  | ObjBinary (b : Binary)
  | ObjNone
  | ObjEmptyList.

(** The [file] argument: a file name or an already loaded binary. *)
Inductive file_arg : Set :=
  | FileName (s : string)
  | FileObj (o : pyobj).

Definition of_parse (o : option Binary) : pyobj :=
  match o with
  | Some b => ObjBinary b
  | None => ObjNone
  end.

(** ** Token tables *)

(** [from_os_varnames(binary, input_)] *)
Definition from_os_varnames (binary : Binary) (input_ : string) : string :=
  match format binary with
  | MACHO =>
      Py.replace (Py.replace (Py.replace input_
        "@loader_path" "$SELFDIR") "@executable_path" "$EXEDIR") "@rpath" "$RPATH"
  | ELF =>
      let libdir := if decide (type binary = CLASS64) then "/lib64" else "/lib" in
      Py.replace (Py.replace input_ "$ORIGIN" "$SELFDIR") "$LIB" libdir
  | PE => input_
  end.

(** [to_os_varnames(binary, input_)].  The ELF branch reads [binary.ehdr],
    which a LIEF binary does not have, and then calls [.replace] on the name
    [input], which is the builtin function and not the parameter [input_]:
    either lookup raises [AttributeError].  There is no PE branch, so the
    function falls off its end and returns [None]. *)
Definition to_os_varnames (binary : Binary) (input_ : string) : outcome (option string) :=
  match format binary with
  | MACHO =>
      Returns (Some (Py.replace (Py.replace (Py.replace input_
        "$SELFDIR" "@loader_path") "$EXEDIR" "@executable_path") "$RPATH" "@rpath"))
  | ELF => Raises AttributeError
  | PE => Returns None
  end.

(** [_trim_sysroot(sysroot)]: every turn of the [while] drops one
    character, so the length of the string is fuel enough. *)
Fixpoint trim_loop (fuel : nat) (sysroot : string) : string :=
  match fuel with
  | O => sysroot
  | S fuel' =>
      if Py.endswith sysroot "/" || Py.endswith sysroot "\"
      then trim_loop fuel' (Py.drop_last sysroot)
      else sysroot
  end.

Definition _trim_sysroot (sysroot : string) : string :=
  trim_loop (String.length sysroot) sysroot.

(** [_get_path_dirs(prefix)], the generator as the list it yields. *)
Definition _get_path_dirs (prefix : string) : list string :=
  [ OsPath.join prefix ["Library"; "mingw-w64"; "bin"];
    OsPath.join prefix ["Library"; "usr"; "bin"];
    OsPath.join prefix ["Library"; "bin"];
    OsPath.join prefix ["Scripts"];
    OsPath.join prefix ["bin"] ].

(** ** The world outside: the file system and the LIEF parser *)

(** What [lief.parse(path)] does: it yields a binary, yields [None], or
    raises. *)
Inductive parse_result : Set :=
  | Parsed (b : Binary)
  | ParsedNone
  | ParseFails.

Record World : Type := {
  os_path_exists : string -> bool;
  lief_parse : string -> parse_result;
}.

Section Engine.

Context (w : World).

(** [ensure_binary(file)]: the bare [except] swallows a parser failure,
    prints a warning and falls through to [return None]. *)
Definition ensure_binary (file : file_arg) : pyobj :=
  match file with
  | FileObj o => o
  | FileName f =>
      if negb (os_path_exists w f) then ObjEmptyList
      else match lief_parse w f with
           | Parsed b => ObjBinary b
           | ParsedNone => ObjNone
           | ParseFails => ObjNone
           end
  end.

(** [codefile_type_liefldd(file)], to which [codefile_type] is rebound
    when LIEF is there. *)
Definition codefile_type (file : file_arg) : option string :=
  match ensure_binary file with
  | ObjBinary binary =>
      match format binary with
      | PE =>
          if decide (Z.land (header_characteristics binary) HEADER_CHARACTERISTICS_DLL <> 0%Z)
          then Some "DLLfile" else Some "EXEfile"
      | MACHO => Some "machofile"
      | ELF => Some "elffile"
      end
  | _ => None
  end.

(** [[command.name for command in binary.commands if command.command == ID_DYLIB]] *)
Definition id_dylib_names (binary : Binary) : list string :=
  omap (fun c => match c with LC_ID_DYLIB n => Some n | _ => None end) (commands binary).

(** [get_libraries(file)] *)
Definition get_libraries (file : file_arg) : list string :=
  match ensure_binary file with
  | ObjBinary binary =>
      match format binary with
      | PE => libraries binary
      | _ =>
          let binary_name :=
            if bool_decide (format binary = MACHO) && has_rpath binary
            then head (id_dylib_names binary) else None in
          let result := libraries binary in
          if bool_decide (format binary = MACHO)
          then map (from_os_varnames binary)
                   (List.filter (fun l => negb (Py.truthy_opt binary_name &&
                                                Py.endswith l (default "" binary_name)))
                                result)
          else result
      end
  | _ => []
  end.

(** The three comprehensions over [binary.dynamic_entries]. *)
Definition runpath_entries (binary : Binary) : list string :=
  omap (fun e => match e with DT_RUNPATH r => Some r | _ => None end) (dynamic_entries binary).

Definition rpath_entries (binary : Binary) : list string :=
  omap (fun e => match e with DT_RPATH r => Some r | _ => None end) (dynamic_entries binary).

Definition soname_entries (binary : Binary) : list string :=
  omap (fun e => match e with DT_SONAME n => Some n | _ => None end) (dynamic_entries binary).

(** [[command.path.rstrip('/') for command in binary.commands if command.command == RPATH]] *)
Definition lc_rpath_paths (binary : Binary) : list string :=
  omap (fun c => match c with LC_RPATH p => Some (Py.rstrip "/" p) | _ => None end) (commands binary).

Definition recognized_class (binary : Binary) : bool :=
  bool_decide (type binary = CLASS32) || bool_decide (type binary = CLASS64).

(** [get_rpaths(file, exe_dirname, envroot, windows_root)] *)
Definition get_rpaths (file : file_arg) (exe_dirname : option string)
    (envroot windows_root : string) : list string :=
  match ensure_binary file with
  | ObjBinary binary =>
      match format binary with
      | PE =>
          if negb (Py.truthy_opt exe_dirname) then []
          else
            let rpaths :=
              [Py.replace (default "" exe_dirname) "\" "/"]
              ++ (if Py.truthy windows_root
                  then [Py.join "/" [windows_root; "System32"]; windows_root] else [])
              ++ (if Py.truthy envroot then _get_path_dirs envroot else []) in
            map (from_os_varnames binary) rpaths
      | MACHO =>
          let rpaths := if has_rpath binary then lc_rpath_paths binary else [] in
          map (from_os_varnames binary) rpaths
      | ELF =>
          let rpaths :=
            if recognized_class binary then
              let rpaths_colons := runpath_entries binary in
              let rpaths_colons :=
                match rpaths_colons with
                | [] => rpath_entries binary
                | _ => rpaths_colons
                end in
              flat_map (Py.split ":") rpaths_colons
            else [] in
          map (from_os_varnames binary) rpaths
      end
  | _ => []
  end.

(** [get_uniqueness_key(file)]; on [None] or [[]] the first attribute
    lookup raises. *)
Definition get_uniqueness_key (file : file_arg) : outcome string :=
  match ensure_binary file with
  | ObjBinary binary =>
      match format binary with
      | MACHO => Returns (name binary)
      | ELF =>
          if recognized_class binary then
            match soname_entries binary with
            | r :: _ => Returns r
            | [] => Returns (name binary)
            end
          else Returns (name binary)
      | PE => Returns (name binary)
      end
  | _ => Raises AttributeError
  end.

(** The [for rpath in these_rpaths] loop of the resolver: the first
    accepted candidate, with the values [resolved] and [exists_sysroot]
    have at the [break]. *)
Fixpoint first_candidate (unresolved exedir selfdir sysroot : string)
    (resolved_rpath : option string) (these_rpaths : list string)
    : option (string * string * pyval) :=
  match these_rpaths with
  | [] => None
  | rpath :: rest =>
      let resolved :=
        Py.replace (Py.replace (Py.replace unresolved
          "$RPATH" rpath) "$SELFDIR" selfdir) "$EXEDIR" exedir in
      let exists_ := os_path_exists w resolved in
      let exists_sysroot :=
        py_and exists_ (if Py.truthy sysroot
                        then PyBool (Py.startswith resolved sysroot)
                        else PyStr sysroot) in
      if Py.truthy_opt resolved_rpath || exists_ || pyval_truthy exists_sysroot
      then Some (resolved, rpath, exists_sysroot)
      else first_candidate unresolved exedir selfdir sysroot resolved_rpath rest
  end.

(** [_get_resolved_location(codefile, unresolved, exedir, selfdir,
    rpaths_transitive, LD_LIBRARY_PATH, default_paths, sysroot,
    resolved_rpath)]: the resolved location, the rpath used, in-sysroot. *)
Definition _get_resolved_location (codefile : Binary)
    (unresolved exedir selfdir : string) (rpaths_transitive : list string)
    (LD_LIBRARY_PATH : string) (default_paths : list string)
    (sysroot : string) (resolved_rpath : option string)
    : string * option string * pyval :=
  let ld_library_paths :=
    if negb (Py.truthy LD_LIBRARY_PATH) then [] else Py.split ":" LD_LIBRARY_PATH in
  if Py.startswith unresolved "$RPATH" then
    let these_rpaths :=
      if Py.truthy_opt resolved_rpath then [default "" resolved_rpath]
      else rpaths_transitive ++ ld_library_paths
           ++ map (fun dp => Py.replace dp "$SYSROOT/" sysroot) default_paths in
    match first_candidate unresolved exedir selfdir sysroot resolved_rpath these_rpaths with
    | Some (resolved, rpath, exists_sysroot) => (resolved, Some rpath, exists_sysroot)
    | None => (unresolved, None, PyBool false)
    end
  else if Py.contains "$SELFDIR" unresolved || Py.contains "$EXEDIR" unresolved then
    let resolved := Py.replace (Py.replace unresolved "$SELFDIR" selfdir) "$EXEDIR" exedir in
    let exists_ := os_path_exists w resolved in
    let exists_sysroot :=
      py_and exists_ (if Py.truthy sysroot
                      then PyBool (Py.startswith resolved sysroot)
                      else PyStr sysroot) in
    (resolved, None, exists_sysroot)
  else if Py.startswith unresolved "/" then (unresolved, None, PyBool false)
  else (OsPath.join selfdir [unresolved], None, PyBool false).

End Engine.

(** ** The worklist walker *)

(** The local variables of [inspect_linkages_lief] that the loop mutates.
    [trace] is not in the source: it records, in order, the file names
    whose library references the walker has resolved. *)
Record walk_state : Type := {
  already_seen : gset string;
  results : gset string;
  rpaths_by_binary : gmap string (list string);
  parents_by_filename : gmap string (option string);
  todo : list (string * option Binary);
  trace : list string;
}.

(** The options of a walk, fixed at entry. *)
Record walk_options : Set := {
  resolve_filenames : bool;
  recurse : bool;
  sysroot : string;
  envroot : string;
}.

Section Walker.

Context (w : World) (opts : walk_options).

(** [d[k]] *)
Definition getitem {V : Type} (d : gmap string V) (k : string) : outcome V :=
  match d !! k with
  | Some v => Returns v
  | None => Raises KeyError
  end.

(** The PE branch's [while tmp_filename:] loop up the parent chain,
    looking for the nearest executable. *)
Fixpoint pe_parent_loop (fuel : nat) (parents : gmap string (option string))
    (tmp_filename : option string) (parent_exe_dirname : option string)
    : outcome (option string) :=
  match fuel with
  | O => OutOfFuel
  | S fuel' =>
      if Py.truthy_opt tmp_filename then
        let f := default "" tmp_filename in
        let parent_exe_dirname :=
          if negb (Py.truthy_opt parent_exe_dirname) &&
             bool_decide (codefile_type w (FileName f) = Some "EXEfile")
          then Some (OsPath.dirname f) else parent_exe_dirname in
        next ← getitem parents f;
        pe_parent_loop fuel' parents next parent_exe_dirname
      else Returns parent_exe_dirname
  end.

(** The other formats' [while tmp_filename:] loop:
    [rpaths_transitive[:0] = rpaths_by_binary[tmp_filename]]. *)
Fixpoint transitive_loop (fuel : nat) (rpaths : gmap string (list string))
    (parents : gmap string (option string))
    (tmp_filename : option string) (rpaths_transitive : list string)
    : outcome (list string) :=
  match fuel with
  | O => OutOfFuel
  | S fuel' =>
      if Py.truthy_opt tmp_filename then
        let f := default "" tmp_filename in
        own ← getitem rpaths f;
        next ← getitem parents f;
        transitive_loop fuel' rpaths parents next (own ++ rpaths_transitive)
      else Returns rpaths_transitive
  end.

(** [libraries.remove(filename2)]: the first occurrence goes. *)
Fixpoint remove_first (x : string) (l : list string) : list string :=
  match l with
  | [] => []
  | y :: l' => if String.eqb y x then l' else y :: remove_first x l'
  end.

(** The comprehension that makes the implicit rpath explicit. *)
Definition these_orig_of (binary : Binary) (libs : list string) : list string :=
  map (fun lib =>
         if negb (Py.startswith lib "/") && negb (Py.startswith lib "$") &&
            negb (bool_decide (format binary = MACHO))
         then "$RPATH/" +:+ lib else lib) libs.

(** The body of [for orig in these_orig]. *)
Definition resolve_one (binary : Binary) (filename2 exedir : string)
    (rpaths_transitive default_paths : list string)
    (st : walk_state) (orig : string) : outcome walk_state :=
  let resolved :=
    _get_resolved_location w binary orig exedir exedir rpaths_transitive
      "" default_paths (sysroot opts) None in
  let r0 := resolved.1.1 in
  let st1 :=
    if resolve_filenames opts
    then {| already_seen := already_seen st;
            results := {[ r0 ]} ∪ results st;
            rpaths_by_binary := rpaths_by_binary st;
            parents_by_filename := <[ r0 := Some filename2 ]> (parents_by_filename st);
            todo := todo st;
            trace := trace st |}
    else {| already_seen := already_seen st;
            results := {[ orig ]} ∪ results st;
            rpaths_by_binary := rpaths_by_binary st;
            parents_by_filename := parents_by_filename st;
            todo := todo st;
            trace := trace st |} in
  if recurse opts && os_path_exists w r0 then
    match lief_parse w r0 with
    | ParseFails => Raises ParserError
    | Parsed b =>
        Returns {| already_seen := already_seen st1; results := results st1;
                   rpaths_by_binary := rpaths_by_binary st1;
                   parents_by_filename := parents_by_filename st1;
                   todo := todo st1 ++ [(r0, Some b)];
                   trace := trace st1 |}
    | ParsedNone =>
        Returns {| already_seen := already_seen st1; results := results st1;
                   rpaths_by_binary := rpaths_by_binary st1;
                   parents_by_filename := parents_by_filename st1;
                   todo := todo st1 ++ [(r0, None)];
                   trace := trace st1 |}
    end
  else Returns st1.

Fixpoint resolve_all (binary : Binary) (filename2 exedir : string)
    (rpaths_transitive default_paths : list string)
    (st : walk_state) (these_orig : list string) : outcome walk_state :=
  match these_orig with
  | [] => Returns st
  | orig :: rest =>
      st' ← resolve_one binary filename2 exedir rpaths_transitive default_paths st orig;
      resolve_all binary filename2 exedir rpaths_transitive default_paths st' rest
  end.

(** One turn of [for element in todo:] after its [todo.pop(0)].  The
    first [get_uniqueness_key(binary)] raises when [binary] is [None], so
    the branch for [None] below is never reached. *)
Definition process (fuel : nat) (exedir : string) (default_paths : list string)
    (element : string * option Binary) (st : walk_state) : outcome walk_state :=
  let filename2 := element.1 in
  uniqueness_key ← get_uniqueness_key w (FileObj (of_parse element.2));
  match element.2 with
  | None => Raises AttributeError
  | Some binary =>
      if bool_decide (uniqueness_key ∈ already_seen st) then Returns st
      else
        parent_exe_dirname ←
          (if bool_decide (format binary = PE)
           then pe_parent_loop fuel (parents_by_filename st) (Some filename2) None
           else Returns (Some exedir));
        let own := get_rpaths w (FileObj (ObjBinary binary)) parent_exe_dirname
                     (Py.replace (envroot opts) OsPath.sep "/") (sysroot opts) in
        let rpaths := <[ filename2 := own ]> (rpaths_by_binary st) in
        rpaths_transitive ←
          (if bool_decide (format binary = PE)
           then getitem rpaths filename2
           else transitive_loop fuel rpaths (parents_by_filename st) (Some filename2) []);
        let libs := get_libraries w (FileObj (ObjBinary binary)) in
        let libs := if bool_decide (filename2 ∈ libs) then remove_first filename2 libs else libs in
        let these_orig := these_orig_of binary libs in
        st' ← resolve_all binary filename2 exedir rpaths_transitive default_paths
                {| already_seen := already_seen st; results := results st;
                   rpaths_by_binary := rpaths;
                   parents_by_filename := parents_by_filename st;
                   todo := todo st;
                   trace := trace st ++ [filename2] |}
                these_orig;
        key' ← get_uniqueness_key w (FileObj (ObjBinary binary));
        Returns {| already_seen := {[ key' ]} ∪ already_seen st';
                   results := results st';
                   rpaths_by_binary := rpaths_by_binary st';
                   parents_by_filename := parents_by_filename st';
                   todo := todo st';
                   trace := trace st' |}
  end.

(** [todo.pop(0)] *)
Definition pop0 (st : walk_state) : walk_state :=
  {| already_seen := already_seen st; results := results st;
     rpaths_by_binary := rpaths_by_binary st;
     parents_by_filename := parents_by_filename st;
     todo := tail (todo st);
     trace := trace st |}.

(** [for element in todo:] with the list iterator's index [i]: each turn
    reads [todo[i]] from the list as it stands and stops once [i] is past
    its end; the body pops the head and may append. *)
Fixpoint for_todo (fuel : nat) (exedir : string) (default_paths : list string)
    (i : nat) (st : walk_state) : outcome walk_state :=
  match fuel with
  | O => OutOfFuel
  | S fuel' =>
      match todo st !! i with
      | None => Returns st
      | Some element =>
          st' ← process fuel exedir default_paths element (pop0 st);
          for_todo fuel' exedir default_paths (S i) st'
      end
  end.

(** [while todo:] *)
Fixpoint while_todo (fuel : nat) (exedir : string) (default_paths : list string)
    (st : walk_state) : outcome walk_state :=
  match fuel with
  | O => OutOfFuel
  | S fuel' =>
      match todo st with
      | [] => Returns st
      | _ :: _ =>
          st' ← for_todo fuel exedir default_paths 0 st;
          while_todo fuel' exedir default_paths st'
      end
  end.

(** [default_paths] by the format of the root binary. *)
Definition default_paths_of (binary : Binary) : list string :=
  match format binary with
  | ELF =>
      ["$SYSROOT/lib"; "$SYSROOT/usr/lib"]
      ++ (if bool_decide (type binary = CLASS64)
          then ["$SYSROOT/lib64"; "$SYSROOT/usr/lib64"] else [])
  | MACHO => ["$SYSROOT/usr/lib"]
  | PE => ["$SYSROOT/System32/Wbem"; "$SYSROOT/System32/WindowsPowerShell/v1.0"]
  end.

(** The walk up to the final state; [inspect_linkages_lief] returns its
    [results].  The parameter [arch] of the source is unused. *)
Definition walk (fuel : nat) (filename : string) : outcome walk_state :=
  let exedir := OsPath.dirname filename in
  match lief_parse w filename with
  | ParseFails => Raises ParserError
  | ParsedNone => Raises AttributeError   (* [binary.format] of [None] *)
  | Parsed binary =>
      while_todo fuel exedir (default_paths_of binary)
        {| already_seen := ∅; results := ∅; rpaths_by_binary := ∅;
           parents_by_filename := {[ filename := None ]};
           todo := [(filename, Some binary)];
           trace := [] |}
  end.

Definition inspect_linkages_lief (fuel : nat) (filename : string) : outcome (gset string) :=
  st ← walk fuel filename; Returns (results st).

End Walker.

(** ** The public entry point *)

Section CrossValidation.

Context (w : World) (opts : walk_options).

(** [inspect_linkages_pyldd] lives in [pyldd.py]; here it is whatever
    function of the same arguments the caller links in. *)
Context (inspect_linkages_pyldd :
           string -> bool -> bool -> string -> outcome (gset string)).

(** Whether [get_linkages] prints its disagreement warning. *)
Definition disagreement (filename : string) (result_lief result_pyldd : gset string) : bool :=
  bool_decide (result_lief <> result_pyldd) &&
  negb (bool_decide (codefile_type w (FileName filename) = Some "DLLfile") ||
        bool_decide (codefile_type w (FileName filename) = Some "EXEfile")).

(** [get_linkages(filename, resolve_filenames, recurse, sysroot, envroot)]:
    the result, and whether the warning was printed. *)
Definition get_linkages (fuel : nat) (filename : string) : outcome (gset string * bool) :=
  result_lief ← inspect_linkages_lief w opts fuel filename;
  result_pyldd ← inspect_linkages_pyldd filename (resolve_filenames opts)
                   (recurse opts) (sysroot opts);
  Returns (result_lief, disagreement filename result_lief result_pyldd).

End CrossValidation.

(** ** Concrete worlds *)

(** A file system given by the files in it and what the parser makes of
    each: a path exists when it is listed; parsing a path that is not
    listed raises. *)
Fixpoint lookup_file (files : list (string * parse_result)) (path : string)
    : option parse_result :=
  match files with
  | [] => None
  | (p, r) :: rest => if String.eqb p path then Some r else lookup_file rest path
  end.

Definition world_with (files : list (string * parse_result)) : World :=
  {| os_path_exists := fun p => bool_decide (is_Some (lookup_file files p));
     lief_parse := fun p => default ParseFails (lookup_file files p) |}.

(** The same when every file parses. *)
Definition world_of (files : list (string * Binary)) : World :=
  world_with (map (fun pb => (pb.1, Parsed pb.2)) files).

(** An ELF shared object at [path], 64-bit, with the given dynamic entries;
    its imported libraries are its [DT_NEEDED] entries. *)
Definition elf64 (path : string) (des : list dynamic_entry) : Binary :=
  {| format := ELF; type := CLASS64; name := path;
     libraries := omap (fun e => match e with DT_NEEDED n => Some n | _ => None end) des;
     dynamic_entries := des; commands := []; header_characteristics := 0 |}.

(** A Mach-O image at [path]; its imported libraries are the names of its
    [LC_LOAD_DYLIB] and [LC_ID_DYLIB] commands. *)
Definition macho (path : string) (cmds : list load_command) : Binary :=
  {| format := MACHO; type := CLASSNONE; name := path;
     libraries := omap (fun c => match c with
                                 | LC_LOAD_DYLIB n | LC_ID_DYLIB n => Some n
                                 | _ => None end) cmds;
     dynamic_entries := []; commands := cmds; header_characteristics := 0 |}.

(** A PE image at [path]. *)
Definition pe (path : string) (characteristics : Z) (imports : list string) : Binary :=
  {| format := PE; type := CLASSNONE; name := path;
     libraries := imports;
     dynamic_entries := []; commands := []; header_characteristics := characteristics |}.

Definition default_options : walk_options :=
  {| resolve_filenames := true; recurse := true; sysroot := ""; envroot := "" |}.

Definition diamond_small : list (string * Binary) :=
  [ ("/opt/bin/A", elf64 "/opt/bin/A" [DT_RUNPATH "/opt/lib"; DT_NEEDED "libB.so"; DT_NEEDED "libC.so"]);
    ("/opt/lib/libB.so", elf64 "/opt/lib/libB.so" [DT_NEEDED "libD.so"]);
    ("/opt/lib/libC.so", elf64 "/opt/lib/libC.so" [DT_NEEDED "libD.so"]);
    ("/opt/lib/libD.so", elf64 "/opt/lib/libD.so" [DT_NEEDED "libE.so"]);
    ("/opt/lib/libE.so", elf64 "/opt/lib/libE.so" []) ].

Definition both_paths : Binary :=
  elf64 "/opt/bin/app" [DT_RPATH "/opt/old"; DT_RUNPATH "/opt/run:$ORIGIN/../lib"; DT_RPATH "/opt/older"].

(** What one candidate directory turns a reference into. *)
Definition substituted (unresolved rpath selfdir exedir : string) : string :=
  Py.replace (Py.replace (Py.replace unresolved
    "$RPATH" rpath) "$SELFDIR" selfdir) "$EXEDIR" exedir.

(** The candidate directories when no rpath is forced: the transitive
    search paths, then the colon-split [LD_LIBRARY_PATH], then the default
    paths with the sysroot substituted. *)
Definition candidates (rpaths_transitive : list string) (LD_LIBRARY_PATH : string)
    (default_paths : list string) (sysroot : string) : list string :=
  rpaths_transitive
  ++ (if negb (Py.truthy LD_LIBRARY_PATH) then [] else Py.split ":" LD_LIBRARY_PATH)
  ++ map (fun dp => Py.replace dp "$SYSROOT/" sysroot) default_paths.

Definition orphan_dll : Binary := pe "C:/pkgs/foo/bar.dll" 8192 ["KERNEL32.dll"].

(** A dependency that exists but that the parser rejects (on Linux
    [libc.so] in the default path is a linker script): the walk raises at
    [todo.append([resolved[0], lief.parse(resolved[0])])]. *)
Definition linker_script_world : World :=
  world_with
    [ ("/opt/bin/app", Parsed (elf64 "/opt/bin/app" [DT_RUNPATH "/usr/lib"; DT_NEEDED "libc.so"]));
      ("/usr/lib/libc.so", ParseFails) ].

(** *** Worlds for the walker *)

(** A shared object [/opt/lib/<n>] that needs the libraries [needed], and
    the root [/opt/bin/A] with RUNPATH [/opt/lib]. *)
Definition lib (n : string) (needed : list string) : string * Binary :=
  ("/opt/lib/" +:+ n, elf64 ("/opt/lib/" +:+ n) (map DT_NEEDED needed)).

Definition root (needed : list string) : string * Binary :=
  ("/opt/bin/A", elf64 "/opt/bin/A" (DT_RUNPATH "/opt/lib" :: map DT_NEEDED needed)).

(** The tree [/opt/app]: [bin/app] loads [@rpath/sub/libbar.dylib] through
    its rpath [@loader_path/../frameworks]; [frameworks/sub/libbar.dylib]
    loads [@rpath/libfoo.dylib] and declares the rpath [@loader_path/../lib];
    [frameworks/lib/libfoo.dylib] is there.  The files are listed under the
    spellings the loader would form. *)
Definition libbar_path : string := "/opt/app/bin/../frameworks/sub/libbar.dylib".

Definition libbar : Binary :=
  macho libbar_path [LC_RPATH "@loader_path/../lib"; LC_LOAD_DYLIB "@rpath/libfoo.dylib"].

Definition app_tree : list (string * Binary) :=
  [ ("/opt/app/bin/app",
     macho "/opt/app/bin/app"
       [LC_RPATH "@loader_path/../frameworks"; LC_LOAD_DYLIB "@rpath/sub/libbar.dylib"]);
    (libbar_path, libbar);
    ("/opt/app/bin/../frameworks/sub/../lib/libfoo.dylib",
     macho "/opt/app/bin/../frameworks/sub/../lib/libfoo.dylib" []) ].

(** The diamond: A needs B and C, both need D; A also needs X, Y, W and Z,
    which need nothing. *)
Definition wide_diamond : list (string * Binary) :=
  [ root ["libB.so"; "libX.so"; "libC.so"; "libY.so"; "libW.so"; "libZ.so"];
    lib "libB.so" ["libD.so"]; lib "libC.so" ["libD.so"]; lib "libD.so" [];
    lib "libX.so" []; lib "libY.so" []; lib "libW.so" []; lib "libZ.so" [] ].

(** A needs B, C, E and F; B needs D; C needs D and Z; D needs G. *)
Definition deep_diamond : list (string * Binary) :=
  [ root ["libB.so"; "libC.so"; "libE.so"; "libF.so"];
    lib "libB.so" ["libD.so"]; lib "libC.so" ["libD.so"; "libZ.so"];
    lib "libD.so" ["libG.so"];
    lib "libE.so" []; lib "libF.so" []; lib "libZ.so" []; lib "libG.so" [] ].

(** The outcome of a walk with what it returns and the files it resolved
    the references of. *)
Definition walk_summary (w : World) (opts : walk_options) (fuel : nat) (filename : string)
    : outcome (gset string * list string) :=
  st ← walk w opts fuel filename; Returns (results st, trace st).

(** Two roots that differ in the order of their two references only. *)
Definition order_BC : list (string * Binary) :=
  [ root ["libB.so"; "libC.so"];
    lib "libB.so" ["libD1.so"]; lib "libC.so" ["libD2.so"];
    lib "libD1.so" []; lib "libD2.so" [] ].

Definition order_CB : list (string * Binary) :=
  [ root ["libC.so"; "libB.so"];
    lib "libB.so" ["libD1.so"]; lib "libC.so" ["libD2.so"];
    lib "libD1.so" []; lib "libD2.so" [] ].

Definition sysroot_tree : list (string * Binary) :=
  [ ("/opt/bin/app", elf64 "/opt/bin/app" [DT_NEEDED "libc.so.6"]);
    ("/sysroot/lib/libc.so.6", elf64 "/sysroot/lib/libc.so.6" [DT_SONAME "libc.so.6"]) ].

Definition with_sysroot (s : string) : walk_options :=
  {| resolve_filenames := true; recurse := true; sysroot := s; envroot := "" |}.

(** ** What the walker maintains *)

(** The uniqueness key of a parsed binary, as a function of the binary. *)
Definition key_of (b : Binary) : string :=
  match format b with
  | ELF =>
      if recognized_class b then
        match soname_entries b with
        | r :: _ => r
        | [] => name b
        end
      else name b
  | MACHO | PE => name b
  end.



(** ** Reordering the root's references *)

(** The binary [b] with its library-reference list replaced. *)
Definition reorder (b : Binary) (libs : list string) : Binary :=
  {| format := format b; type := type b; name := name b;
     libraries := libs;
     dynamic_entries := dynamic_entries b; commands := commands b;
     header_characteristics := header_characteristics b |}.

(** The world [w] with the file at [filename] parsing to [b]. *)
Definition set_root (w : World) (filename : string) (b : Binary) : World :=
  {| os_path_exists := os_path_exists w;
     lief_parse := fun p => if String.eqb p filename then Parsed b else lief_parse w p |}.

(** What the walker adds to the result for one reference. *)
Definition recorded (w : World) (opts : walk_options) (binary : Binary) (exedir : string)
    (rpaths_transitive default_paths : list string) (orig : string) : string :=
  if resolve_filenames opts
  then (_get_resolved_location w binary orig exedir exedir rpaths_transitive
          "" default_paths (sysroot opts) None).1.1
  else orig.

(** Two outcomes of the same kind, related on what they return. *)
Definition outcome_rel {A : Type} (R : A -> A -> Prop) (o o' : outcome A) : Prop :=
  match o, o' with
  | Returns a, Returns a' => R a a'
  | Raises e, Raises e' => e = e'
  | OutOfFuel, OutOfFuel => True
  | _, _ => False
  end.

(** Same result set, and nothing left on either worklist. *)
Definition same_results_done (st st' : walk_state) : Prop :=
  results st = results st' /\ todo st = [] /\ todo st' = [].

(** ** More of the module *)

(** [get_runpaths(file)] *)
Definition get_runpaths (w : World) (file : file_arg) : list string :=
  match ensure_binary w file with
  | ObjBinary binary =>
      let rpaths :=
        if bool_decide (format binary = ELF) && recognized_class binary
        then flat_map (Py.split ":") (runpath_entries binary)
        else [] in
      map (from_os_varnames binary) rpaths
  | _ => []
  end.

(** ** The root's own share of a walk *)

(** The host executable directory the walker finds for the root: for PE
    the root's own directory when the root is an executable, nothing
    otherwise; for the other formats the root's directory. *)
Definition root_host_dir (w : World) (filename : string) (b : Binary) : option string :=
  if bool_decide (format b = PE) then
    if Py.truthy filename && bool_decide (codefile_type w (FileName filename) = Some "EXEfile")
    then Some (OsPath.dirname filename) else None
  else Some (OsPath.dirname filename).

(** The search paths the root's references are resolved against. *)
Definition root_search_paths (w : World) (opts : walk_options) (filename : string)
    (b : Binary) : list string :=
  if bool_decide (format b = PE) || Py.truthy filename
  then get_rpaths w (FileObj (ObjBinary b)) (root_host_dir w filename b)
         (Py.replace (envroot opts) OsPath.sep "/") (sysroot opts)
  else [].

(** The root's references as the walker resolves them. *)
Definition root_references (w : World) (filename : string) (b : Binary) : list string :=
  these_orig_of b
    (if bool_decide (filename ∈ get_libraries w (FileObj (ObjBinary b)))
     then remove_first filename (get_libraries w (FileObj (ObjBinary b)))
     else get_libraries w (FileObj (ObjBinary b))).

(** What the root's references add to the result. *)
Definition direct_linkages (w : World) (opts : walk_options) (filename : string)
    (b : Binary) : gset string :=
  list_to_set
    (map (recorded w opts b (OsPath.dirname filename)
            (root_search_paths w opts filename b) (default_paths_of b))
         (root_references w filename b)).

(** ** Walking without resolving file names *)

(** A root with one dependency that exists. *)
Definition one_dependency : list (string * Binary) :=
  [ root ["libB.so"]; lib "libB.so" [] ].

Definition names_only : walk_options :=
  {| resolve_filenames := false; recurse := true; sysroot := ""; envroot := "" |}.

(** What holds of the walker's state when [resolve_filenames] is off: the
    parent map is never written, every worklist entry is the root or has a
    non-empty name, and only the root had its references resolved. *)
Definition names_only_inv (filename : string) (st : walk_state) : Prop :=
  parents_by_filename st = {[filename := None]}
  /\ Forall (fun e : string * option Binary => e.1 = filename \/ Py.truthy e.1 = true)
            (todo st)
  /\ Forall (fun f => f = filename) (trace st).

(** ** Libraries that need each other *)

(** The root needs X and B; B needs C and D; C needs B and E. *)
Definition mutual : list (string * Binary) :=
  [ root ["libX.so"; "libB.so"];
    lib "libB.so" ["libC.so"; "libD.so"]; lib "libC.so" ["libB.so"; "libE.so"];
    lib "libD.so" []; lib "libE.so" []; lib "libX.so" [] ].

(** The state an outcome returns, [st] when it returns none. *)
Definition returned_or (st : walk_state) (o : outcome walk_state) : walk_state :=
  match o with
  | Returns s => s
  | _ => st
  end.

(** ** The memoizing decorators *)

(** Exceptions of this part: [os.stat] or [open] failing, an unhashable
    value in a key, and whatever the decorated function raises. *)
Inductive memo_exn : Set :=
  | OSError
  | TypeError
  | FuncError (tag : string).

(** A value, or an exception on its way to the caller. *)
Inductive attempt (A : Type) : Type :=
  | Done (a : A)
  | Throws (e : memo_exn).

Arguments Done {A} a.
Arguments Throws {A} e.

(** The hashable values passed around: [None], a [bool], an [int], a
    [str]. *)
Inductive atom : Set :=
  | ANone
  | ABool (b : bool)
  | AInt (z : Z)
  | AStr (s : string).

(** An argument value: hashable, a [list] of hashable values, or something
    unhashable that is no list (a [dict], a [set]). *)
Inductive pyvalue : Set :=
  | VAtom (a : atom)
  | VList (l : list atom)
  | VUnhashable.

(** An argument as passed: the object ([is] compares [oid]) and its
    value. *)
Record arg : Set := { oid : nat; val : pyvalue }.

(** A hashable value as a dictionary key: [True == 1] and they hash alike,
    so a [bool] is the [int] it equals. *)
Inductive katom : Set :=
  | KNone
  | KInt (z : Z)
  | KStr (s : string).

Definition key_of_atom (a : atom) : katom :=
  match a with
  | ANone => KNone
  | ABool b => KInt (Z.b2z b)
  | AInt z => KInt z
  | AStr s => KStr s
  end.

(** One component of [newargs]: a hashable value, or the tuple made of a
    list. *)
Inductive keypart : Set :=
  | KAtom (k : katom)
  | KTuple (l : list katom).

Global Instance katom_eq_dec : EqDecision katom.
Proof. solve_decision. Defined.

Global Instance katom_countable : Countable katom.
Proof.
  refine (inj_countable'
            (fun k => match k with
                      | KNone => inl ()
                      | KInt z => inr (inl z)
                      | KStr s => inr (inr s)
                      end)
            (fun x => match x with
                      | inl _ => KNone
                      | inr (inl z) => KInt z
                      | inr (inr s) => KStr s
                      end) _).
  by intros [].
Defined.

Global Instance keypart_eq_dec : EqDecision keypart.
Proof. solve_decision. Defined.

Global Instance keypart_countable : Countable keypart.
Proof.
  refine (inj_countable'
            (fun k => match k with
                      | KAtom a => inl a
                      | KTuple l => inr l
                      end)
            (fun x => match x with
                      | inl a => KAtom a
                      | inr l => KTuple l
                      end) _).
  by intros [].
Defined.

(** The cache key: [(tuple(newargs), frozenset(sorted(kw.items())))]. *)
Definition memo_key : Type := list keypart * gmap string katom.

(** What the file system answers: [os.stat(arg).st_ino], and the bytes
    [open(arg, 'rb')] reads; either may raise. *)
Record FileSystem : Type := {
  st_ino : pyvalue -> attempt Z;
  read_bytes : pyvalue -> attempt string;
}.

(** What becomes of the first argument in [memoized_by_arg0_inode]:
    [arg = os.stat(arg).st_ino]. *)
Definition arg0_inode (fs : FileSystem) (v : pyvalue) : attempt atom :=
  match st_ino fs v with
  | Done ino => Done (AInt ino)
  | Throws e => Throws e
  end.

(** What becomes of it in [memoized_by_arg0_filehash]: the file is read in
    blocks into a SHA-1 state and [arg = sha1.hexdigest()]; [sha1_hex] is
    the digest of the whole content. *)
Definition arg0_filehash (sha1_hex : string -> string) (fs : FileSystem) (v : pyvalue)
    : attempt atom :=
  match read_bytes fs v with
  | Done content => Done (AStr (sha1_hex content))
  | Throws e => Throws e
  end.

(** The [for arg in args] loop: [None] when an unhashable argument makes
    the call go straight to the function, the tuple [newargs] otherwise.
    [id0] is the object [args[0]]. *)
Fixpoint newargs_loop (arg0 : pyvalue -> attempt atom) (id0 : nat) (args : list arg)
    (newargs : list keypart) : attempt (option (list keypart)) :=
  match args with
  | [] => Done (Some newargs)
  | a :: rest =>
      let converted :=
        if Nat.eqb (oid a) id0
        then match arg0 (val a) with
             | Done x => Done (VAtom x)
             | Throws e => Throws e
             end
        else Done (val a) in
      match converted with
      | Throws e => Throws e
      | Done (VList l) =>
          newargs_loop arg0 id0 rest (newargs ++ [KTuple (map key_of_atom l)])
      | Done VUnhashable => Done None
      | Done (VAtom x) =>
          newargs_loop arg0 id0 rest (newargs ++ [KAtom (key_of_atom x)])
      end
  end.

(** [frozenset(sorted(kw.items()))]: a keyword value that is not hashable
    (a list too, here nothing turns it into a tuple) raises. *)
Definition hashable (v : pyvalue) : bool :=
  match v with
  | VAtom _ => true
  | _ => false
  end.

Definition frozen_items (kw : gmap string pyvalue) : attempt (gmap string katom) :=
  if bool_decide (map_Forall (fun _ v => hashable v = true) kw)
  then Done (omap (fun v => match v with
                            | VAtom a => Some (key_of_atom a)
                            | _ => None
                            end) kw)
  else Throws TypeError.

(** The key of a call, [None] when the call bypasses the cache. *)
Definition call_key (arg0 : pyvalue -> attempt atom) (args : list arg)
    (kw : gmap string pyvalue) : attempt (option memo_key) :=
  match newargs_loop arg0 (from_option oid 0 (head args)) args [] with
  | Throws e => Throws e
  | Done None => Done None
  | Done (Some newargs) =>
      match frozen_items kw with
      | Throws e => Throws e
      | Done items => Done (Some (newargs, items))
      end
  end.

(** [__call__(self, *args, **kw)]: the outcome and the cache afterwards.
    [func] is [self.func]. *)
Definition memo_call {V : Type} (arg0 : pyvalue -> attempt atom)
    (func : list arg -> gmap string pyvalue -> attempt V)
    (cache : gmap memo_key V) (args : list arg) (kw : gmap string pyvalue)
    : attempt V * gmap memo_key V :=
  match call_key arg0 args kw with
  | Throws e => (Throws e, cache)
  | Done None => (func args kw, cache)
  | Done (Some key) =>
      match cache !! key with
      | Some value => (Done value, cache)
      | None =>
          match func args kw with
          | Done value => (Done value, <[key := value]> cache)
          | Throws e => (Throws e, cache)
          end
      end
  end.

(** The two decorator classes. *)
Definition memoized_by_arg0_inode {V : Type} (fs : FileSystem) :=
  @memo_call V (arg0_inode fs).

Definition memoized_by_arg0_filehash {V : Type} (sha1_hex : string -> string)
    (fs : FileSystem) :=
  @memo_call V (arg0_filehash sha1_hex fs).

(** * Properties *)

(** ** The string methods on examples *)

Example replace_ex1 : Py.replace "$ORIGIN/../lib:$ORIGIN" "$ORIGIN" "$SELFDIR" = "$SELFDIR/../lib:$SELFDIR".
Proof. reflexivity. Qed.
Example replace_ex2 : Py.replace "aaa" "aa" "b" = "ba".
Proof. reflexivity. Qed.
Example replace_ex3 : Py.replace "abc" "" "X" = "XaXbXcX".
Proof. reflexivity. Qed.
Example split_ex1 : Py.split ":" "/a:/b::" = ["/a"; "/b"; ""; ""].
Proof. reflexivity. Qed.
Example split_ex2 : Py.split ":" "" = [""].
Proof. reflexivity. Qed.
Example rstrip_ex1 : Py.rstrip "/" "/a//b///" = "/a//b".
Proof. reflexivity. Qed.
Example dirname_ex1 : OsPath.dirname "/opt/bin/app" = "/opt/bin".
Proof. reflexivity. Qed.
Example dirname_ex2 : OsPath.dirname "/app" = "/".
Proof. reflexivity. Qed.
Example dirname_ex3 : OsPath.dirname "app" = "".
Proof. reflexivity. Qed.
Example join_ex1 : OsPath.join "C:/env" ["Library"; "mingw-w64"; "bin"] = "C:/env/Library/mingw-w64/bin".
Proof. reflexivity. Qed.
Example endswith_ex1 : Py.endswith "/sysroot/" "/" = true.
Proof. reflexivity. Qed.

Example trim_ex1 : _trim_sysroot "/sysroot//\" = "/sysroot".
Proof. reflexivity. Qed.
Example trim_ex2 : _trim_sysroot "///" = "".
Proof. reflexivity. Qed.

(** ** Search-path collection *)

(** Replacing a token that does not occur changes nothing. *)
Lemma replace_absent (s old new : string) :
  old <> EmptyString -> Py.contains old s = false -> Py.replace s old new = s.
Proof.
  intros Hold. unfold Py.replace. destruct old as [|a old']; [done|]. clear Hold.
  induction s as [|c s IH]; [done|].
  cbn [Py.contains Py.replace_from]. intros [Hpre Hrest]%orb_false_elim.
  rewrite Hpre. by rewrite IH.
Qed.

Section GetRpaths.

Context (w : World).

(** The canonical form of a directory depends on the format and the ELF
    class of the binary only. *)
Lemma from_os_varnames_ext (b b' : Binary) (s : string) :
  format b = format b' -> type b = type b' ->
  from_os_varnames b s = from_os_varnames b' s.
Proof.
  intros Hf Ht. unfold from_os_varnames. rewrite Hf, Ht. reflexivity.
Qed.

(** On ELF a directory without [$ORIGIN] and [$LIB] is its own canonical
    form. *)
Lemma from_os_varnames_plain (b : Binary) (dirs : list string) :
  format b = ELF ->
  Forall (fun d => Py.contains "$ORIGIN" d = false /\ Py.contains "$LIB" d = false) dirs ->
  map (from_os_varnames b) dirs = dirs.
Proof.
  intros Hf. induction 1 as [|d ds [Ho Hl] _ IH]; [done|].
  cbn [map]. rewrite IH. f_equal.
  unfold from_os_varnames. rewrite Hf.
  rewrite (replace_absent d "$ORIGIN") by done.
  by rewrite (replace_absent d "$LIB").
Qed.

Lemma recognized_class_ext (b b' : Binary) :
  type b = type b' -> recognized_class b = recognized_class b'.
Proof. intros Ht. unfold recognized_class. rewrite Ht. reflexivity. Qed.

(** With a RUNPATH entry present the [if not len(rpaths_colons)] branch
    is not taken, so the RPATH comprehension is never evaluated. *)
Lemma get_rpaths_elf_runpath (file : file_arg) (binary : Binary)
    (exe_dirname : option string) (envroot windows_root : string) :
  ensure_binary w file = ObjBinary binary ->
  format binary = ELF ->
  recognized_class binary = true ->
  runpath_entries binary <> [] ->
  get_rpaths w file exe_dirname envroot windows_root
  = map (from_os_varnames binary) (flat_map (Py.split ":") (runpath_entries binary)).
Proof.
  intros Hb Hf Hc Hr. unfold get_rpaths. rewrite Hb, Hf, Hc.
  destruct (runpath_entries binary) as [|r rs]; [congruence | reflexivity].
Qed.

End GetRpaths.

(** C1. For an ELF binary of class 32 or 64 with at least one RUNPATH entry,
    [get_rpaths] returns the colon-split RUNPATH directories, in order, each
    in the canonical form [from_os_varnames] gives it (the directories
    themselves when none holds [$ORIGIN] or [$LIB]); and the result is the
    same for every other binary of that format and class with the same
    RUNPATH entries, whatever RPATH entries either of them declares. *)
Theorem get_rpaths_runpath_only (w : World) (binary : Binary)
    (exe_dirname : option string) (envroot windows_root : string) :
  format binary = ELF ->
  recognized_class binary = true ->
  runpath_entries binary <> [] ->
  get_rpaths w (FileObj (ObjBinary binary)) exe_dirname envroot windows_root
  = map (from_os_varnames binary) (flat_map (Py.split ":") (runpath_entries binary))
  /\ (Forall (fun d => Py.contains "$ORIGIN" d = false /\ Py.contains "$LIB" d = false)
             (flat_map (Py.split ":") (runpath_entries binary)) ->
      get_rpaths w (FileObj (ObjBinary binary)) exe_dirname envroot windows_root
      = flat_map (Py.split ":") (runpath_entries binary))
  /\ forall binary' : Binary,
       format binary' = ELF -> type binary' = type binary ->
       runpath_entries binary' = runpath_entries binary ->
       get_rpaths w (FileObj (ObjBinary binary')) exe_dirname envroot windows_root
       = get_rpaths w (FileObj (ObjBinary binary)) exe_dirname envroot windows_root.
Proof.
  intros Hf Hc Hr.
  pose proof (get_rpaths_elf_runpath w (FileObj (ObjBinary binary)) binary
                exe_dirname envroot windows_root eq_refl Hf Hc Hr) as Heq.
  split; [exact Heq | split].
  - intros Hplain. rewrite Heq. by apply from_os_varnames_plain.
  - intros b' Hf' Ht' Hr'.
    assert (Hc' : recognized_class b' = true)
      by (by rewrite (recognized_class_ext b' binary)).
    assert (Hne : runpath_entries b' <> []) by congruence.
    rewrite (get_rpaths_elf_runpath w (FileObj (ObjBinary b')) b' _ _ _ eq_refl Hf' Hc' Hne).
    rewrite Heq, Hr'. apply map_ext. intros s. apply from_os_varnames_ext; congruence.
Qed.

Lemma get_rpaths_runpath_only_witness :
  get_rpaths (world_of []) (FileObj (ObjBinary both_paths)) None "" ""
  = ["/opt/run"; "$SELFDIR/../lib"].
Proof.
  destruct (get_rpaths_runpath_only (world_of []) both_paths None "" "") as [H _];
    [reflexivity | reflexivity | discriminate | exact H].
Defined.

(** ** The resolver *)

Section Resolver.

Context (w : World).

(** [exists and sysroot and resolved.startswith(sysroot)] is falsy when
    the path does not exist. *)
Lemma exists_sysroot_absent (sysroot resolved : string) :
  py_and false (if Py.truthy sysroot
                then PyBool (Py.startswith resolved sysroot)
                else PyStr sysroot) = PyBool false.
Proof. reflexivity. Qed.

(** One turn of the candidate loop. *)
Lemma first_candidate_cons (unresolved exedir selfdir sysroot : string)
    (resolved_rpath : option string) (rpath : string) (rest : list string) :
  first_candidate w unresolved exedir selfdir sysroot resolved_rpath (rpath :: rest)
  = let resolved := substituted unresolved rpath selfdir exedir in
    let exists_sysroot :=
      py_and (os_path_exists w resolved)
             (if Py.truthy sysroot
              then PyBool (Py.startswith resolved sysroot)
              else PyStr sysroot) in
    if Py.truthy_opt resolved_rpath || os_path_exists w resolved
       || pyval_truthy exists_sysroot
    then Some (resolved, rpath, exists_sysroot)
    else first_candidate w unresolved exedir selfdir sysroot resolved_rpath rest.
Proof. reflexivity. Qed.

(** No candidate exists on disk, none is forced: the loop ends without a
    [break]. *)
Lemma first_candidate_none (unresolved exedir selfdir sysroot : string)
    (these_rpaths : list string) :
  (forall rpath, rpath ∈ these_rpaths ->
     os_path_exists w (substituted unresolved rpath selfdir exedir) = false) ->
  first_candidate w unresolved exedir selfdir sysroot None these_rpaths = None.
Proof.
  induction these_rpaths as [|rpath rest IH]; intros Hno; [reflexivity|].
  rewrite first_candidate_cons. cbv zeta.
  rewrite (Hno rpath) by apply list_elem_of_here.
  rewrite exists_sysroot_absent. cbn [Py.truthy_opt orb pyval_truthy].
  apply IH. intros r Hr. apply Hno. by apply list_elem_of_further.
Qed.

(** An accepted candidate is one of the list, names the substituted path,
    and, unless it was forced, that path exists. *)
Lemma first_candidate_some (unresolved exedir selfdir sysroot : string)
    (resolved_rpath : option string) (these_rpaths : list string)
    (resolved rpath : string) (exists_sysroot : pyval) :
  first_candidate w unresolved exedir selfdir sysroot resolved_rpath these_rpaths
  = Some (resolved, rpath, exists_sysroot) ->
  rpath ∈ these_rpaths
  /\ resolved = substituted unresolved rpath selfdir exedir
  /\ (Py.truthy_opt resolved_rpath = false -> os_path_exists w resolved = true).
Proof.
  induction these_rpaths as [|r rest IH]; [discriminate|].
  rewrite first_candidate_cons. cbv zeta.
  destruct (Py.truthy_opt resolved_rpath) eqn:Hforced.
  - cbn [orb]. intros [= <- <- <-].
    split; [apply list_elem_of_here | split; [reflexivity | discriminate]].
  - destruct (os_path_exists w (substituted unresolved r selfdir exedir)) eqn:Hex.
    + cbn [orb]. intros [= <- <- <-].
      split; [apply list_elem_of_here | split; [reflexivity | done]].
    + rewrite exists_sysroot_absent. cbn [orb pyval_truthy].
      intros H. destruct (IH H) as (Hin & Hres & Hexists).
      split; [by apply list_elem_of_further | split; assumption].
Qed.

(** A reference that starts with a slash does not start with [$RPATH]. *)
Lemma absolute_not_rpath (unresolved : string) :
  Py.startswith unresolved "/" = true -> Py.startswith unresolved "$RPATH" = false.
Proof.
  unfold Py.startswith. destruct unresolved as [|c s]; [discriminate|].
  change (String.prefix "/" (String c s))
    with (if Ascii.ascii_dec "/" c then String.prefix "" s else false).
  change (String.prefix "$RPATH" (String c s))
    with (if Ascii.ascii_dec "$" c then String.prefix "RPATH" s else false).
  destruct (Ascii.ascii_dec "/" c) as [<-|Hne]; [|discriminate].
  intros _. reflexivity.
Qed.

(** The [$RPATH] branch when no rpath is forced. *)
Lemma rpath_branch (codefile : Binary) (unresolved exedir selfdir : string)
    (rpaths_transitive : list string) (LD_LIBRARY_PATH : string)
    (default_paths : list string) (sysroot : string) :
  Py.startswith unresolved "$RPATH" = true ->
  _get_resolved_location w codefile unresolved exedir selfdir rpaths_transitive
    LD_LIBRARY_PATH default_paths sysroot None
  = match first_candidate w unresolved exedir selfdir sysroot None
            (candidates rpaths_transitive LD_LIBRARY_PATH default_paths sysroot) with
    | Some (resolved, rpath, exists_sysroot) => (resolved, Some rpath, exists_sysroot)
    | None => (unresolved, None, PyBool false)
    end.
Proof. intros Hstart. unfold _get_resolved_location. rewrite Hstart. reflexivity. Qed.

End Resolver.

(** C2. A reference that starts with [$RPATH], no forced rpath, and no
    candidate directory (transitive search paths, then the colon-split
    [LD_LIBRARY_PATH], then the sysroot-substituted default paths) whose
    substituted path exists on disk: [_get_resolved_location] returns the
    reference itself, no used search-path entry, and [False]. *)
Theorem unresolved_returned_verbatim (w : World) (codefile : Binary)
    (unresolved exedir selfdir : string) (rpaths_transitive : list string)
    (LD_LIBRARY_PATH : string) (default_paths : list string) (sysroot : string) :
  Py.startswith unresolved "$RPATH" = true ->
  (forall rpath,
     rpath ∈ candidates rpaths_transitive LD_LIBRARY_PATH default_paths sysroot ->
     os_path_exists w (substituted unresolved rpath selfdir exedir) = false) ->
  _get_resolved_location w codefile unresolved exedir selfdir rpaths_transitive
    LD_LIBRARY_PATH default_paths sysroot None
  = (unresolved, None, PyBool false).
Proof.
  intros Hstart Hno. rewrite rpath_branch by exact Hstart.
  by rewrite first_candidate_none.
Qed.

Lemma unresolved_returned_verbatim_witness :
  _get_resolved_location (world_of []) both_paths "$RPATH/libfoo.so" "/opt/bin" "/opt/bin"
    ["/opt/run"; "$SELFDIR/../lib"] "/usr/local/lib:/opt/x" ["$SYSROOT/lib"; "$SYSROOT/usr/lib"]
    "/sysroot/" None
  = ("$RPATH/libfoo.so", None, PyBool false).
Proof.
  apply (unresolved_returned_verbatim (world_of []) both_paths "$RPATH/libfoo.so").
  - reflexivity.
  - intros rpath _. reflexivity.
Defined.

(** C9. A reference that is already an absolute path and holds neither
    [$SELFDIR] nor [$EXEDIR] (it cannot start with [$RPATH]) comes back
    unchanged, with no used search-path entry and [False], whatever the
    search-path stack, [LD_LIBRARY_PATH], default paths, sysroot and forced
    rpath are. *)
Theorem absolute_reference_unchanged (w : World) (codefile : Binary)
    (unresolved exedir selfdir : string) (rpaths_transitive : list string)
    (LD_LIBRARY_PATH : string) (default_paths : list string) (sysroot : string)
    (resolved_rpath : option string) :
  Py.startswith unresolved "/" = true ->
  Py.contains "$SELFDIR" unresolved = false ->
  Py.contains "$EXEDIR" unresolved = false ->
  _get_resolved_location w codefile unresolved exedir selfdir rpaths_transitive
    LD_LIBRARY_PATH default_paths sysroot resolved_rpath
  = (unresolved, None, PyBool false).
Proof.
  intros Habs Hself Hexe. unfold _get_resolved_location.
  rewrite (absolute_not_rpath _ Habs), Hself, Hexe, Habs. reflexivity.
Qed.

Lemma absolute_reference_unchanged_witness :
  _get_resolved_location (world_of diamond_small) both_paths "/usr/lib/libSystem.B.dylib"
    "/opt/bin" "/opt/bin" ["/opt/lib"] "/opt/lib" ["$SYSROOT/usr/lib"] "/" (Some "/opt/lib")
  = ("/usr/lib/libSystem.B.dylib", None, PyBool false).
Proof.
  apply (absolute_reference_unchanged (world_of diamond_small) both_paths
           "/usr/lib/libSystem.B.dylib"); reflexivity.
Defined.

(** C8. For a PE binary whose host executable directory is unknown ([None]
    or the empty string), [get_rpaths] returns the empty list whatever
    [envroot] and [windows_root] are; so a reference of that node that starts
    with [$RPATH] either comes back unresolved or is resolved through an
    entry of [LD_LIBRARY_PATH] or a sysroot-substituted default directory,
    at a path that exists. *)
Theorem pe_unknown_host_no_rpaths (w : World) (binary : Binary)
    (exe_dirname : option string) (envroot windows_root : string) :
  format binary = PE ->
  Py.truthy_opt exe_dirname = false ->
  get_rpaths w (FileObj (ObjBinary binary)) exe_dirname envroot windows_root = []
  /\ forall (unresolved exedir selfdir LD_LIBRARY_PATH sysroot : string)
            (default_paths : list string),
       Py.startswith unresolved "$RPATH" = true ->
       let r := _get_resolved_location w binary unresolved exedir selfdir
                  (get_rpaths w (FileObj (ObjBinary binary)) exe_dirname envroot windows_root)
                  LD_LIBRARY_PATH default_paths sysroot None in
       r = (unresolved, None, PyBool false)
       \/ exists dir,
            r.1.2 = Some dir
            /\ dir ∈ candidates [] LD_LIBRARY_PATH default_paths sysroot
            /\ r.1.1 = substituted unresolved dir selfdir exedir
            /\ os_path_exists w r.1.1 = true.
Proof.
  intros Hf Hexe.
  assert (Hnil : get_rpaths w (FileObj (ObjBinary binary)) exe_dirname envroot windows_root = []).
  { unfold get_rpaths. simpl. rewrite Hf, Hexe. reflexivity. }
  split; [exact Hnil|].
  intros unresolved exedir selfdir LD sysroot default_paths Hstart. rewrite Hnil.
  cbv zeta. rewrite rpath_branch by exact Hstart.
  destruct (first_candidate w unresolved exedir selfdir sysroot None
              (candidates [] LD default_paths sysroot))
    as [[[resolved rpath] exists_sysroot]|] eqn:Hfc.
  - right. exists rpath.
    destruct (first_candidate_some w _ _ _ _ _ _ _ _ _ Hfc) as (Hin & Hres & Hex).
    simpl. repeat split; try done. by apply Hex.
  - by left.
Qed.

Lemma pe_unknown_host_no_rpaths_witness :
  get_rpaths (world_of []) (FileObj (ObjBinary orphan_dll)) None "C:/env" "C:/Windows" = [].
Proof.
  destruct (pe_unknown_host_no_rpaths (world_of []) orphan_dll None "C:/env" "C:/Windows")
    as [H _]; [reflexivity | reflexivity | exact H].
Defined.

(** ** The walker and the entry points *)

(** *** Missing and unparsable input *)

Section EntryPoints.

Context (w : World) (opts : walk_options).
Context (inspect_linkages_pyldd :
           string -> bool -> bool -> string -> outcome (gset string)).

(** [inspect_linkages_lief] parses the root before any loop and outside
    any [try]: when the parser raises, so does the walk; when it yields
    [None], the read of [binary.format] raises. *)
Lemma walk_unparsed_root (fuel : nat) (filename : string) :
  (forall b, lief_parse w filename <> Parsed b) ->
  exists e, walk w opts fuel filename = Raises e.
Proof.
  intros Hno. unfold walk. destruct (lief_parse w filename) as [b| |].
  - by destruct (Hno b).
  - by exists AttributeError.
  - by exists ParserError.
Qed.

End EntryPoints.

(** C3, on the code: when [lief.parse] does not yield a binary for the
    input path (the path is absent, or the file is not one the parser
    reads), [inspect_linkages_lief] and [get_linkages] raise, for every
    fuel; no result is returned. *)
Theorem unparsed_root_raises (w : World) (opts : walk_options)
    (inspect_linkages_pyldd : string -> bool -> bool -> string -> outcome (gset string))
    (fuel : nat) (filename : string) :
  (forall b, lief_parse w filename <> Parsed b) ->
  exists e,
    inspect_linkages_lief w opts fuel filename = Raises e
    /\ get_linkages w opts inspect_linkages_pyldd fuel filename = Raises e.
Proof.
  intros Hno. destruct (walk_unparsed_root w opts fuel filename Hno) as [e He].
  exists e. unfold get_linkages, inspect_linkages_lief. rewrite He. by split.
Qed.

Lemma unparsed_root_raises_witness :
  exists e,
    inspect_linkages_lief (world_of []) default_options 0 "/no/such/file" = Raises e
    /\ get_linkages (world_of []) default_options (fun _ _ _ _ => Returns ∅) 0 "/no/such/file"
       = Raises e.
Proof.
  apply (unparsed_root_raises (world_of []) default_options (fun _ _ _ _ => Returns ∅) 0
           "/no/such/file").
  intros b. discriminate.
Defined.

Example unparsed_dependency_raises :
  inspect_linkages_lief linker_script_world default_options 10 "/opt/bin/app"
  = Raises ParserError.
Proof. reflexivity. Qed.

(** *** The native direction of the token table *)

(** C5, on the code: [to_os_varnames] raises on every ELF binary and
    returns [None] on every PE binary, whatever the text. *)
Theorem to_os_varnames_elf_pe (binary : Binary) (input_ : string) :
  format binary <> MACHO ->
  (format binary = ELF /\ to_os_varnames binary input_ = Raises AttributeError)
  \/ (format binary = PE /\ to_os_varnames binary input_ = Returns None).
Proof.
  intros Hf. unfold to_os_varnames. destruct (format binary); [by left | done | by right].
Qed.

Lemma to_os_varnames_elf_pe_witness :
  to_os_varnames both_paths "$SELFDIR/../lib" = Raises AttributeError
  /\ to_os_varnames orphan_dll "C:/pkgs/foo" = Returns None.
Proof.
  split.
  - destruct (to_os_varnames_elf_pe both_paths "$SELFDIR/../lib") as [[_ H]|[H _]];
      [discriminate | exact H | discriminate].
  - destruct (to_os_varnames_elf_pe orphan_dll "C:/pkgs/foo") as [[H _]|[_ H]];
      [discriminate | discriminate | exact H].
Defined.

(** *** Loader-relative rpaths below the root *)

(** C4, on the code: [libbar.dylib], found through the root, names
    [@rpath/libfoo.dylib] and has the rpath [@loader_path/../lib];
    [<its directory>/../lib/libfoo.dylib] exists, and the resolver finds it
    when given that directory as [selfdir]; the walker passes the root's
    directory for [selfdir] and leaves the reference unresolved. *)
Theorem loader_path_of_dependency :
  get_libraries (world_of app_tree) (FileObj (ObjBinary libbar)) = ["$RPATH/libfoo.dylib"]
  /\ get_rpaths (world_of app_tree) (FileObj (ObjBinary libbar)) None "" "" = ["$SELFDIR/../lib"]
  /\ os_path_exists (world_of app_tree)
       (OsPath.dirname libbar_path +:+ "/../lib/libfoo.dylib") = true
  /\ (_get_resolved_location (world_of app_tree) libbar "$RPATH/libfoo.dylib"
        "/opt/app/bin" (OsPath.dirname libbar_path)
        ["$SELFDIR/../frameworks"; "$SELFDIR/../lib"] "" ["$SYSROOT/usr/lib"] "" None).1.1
     = OsPath.dirname libbar_path +:+ "/../lib/libfoo.dylib"
  /\ inspect_linkages_lief (world_of app_tree) default_options 10 "/opt/app/bin/app"
     = Returns {[ libbar_path; "$RPATH/libfoo.dylib" ]}.
Proof. repeat split; vm_compute; reflexivity. Qed.

(** For the root itself the directory passed is its own. *)
Example loader_path_of_root :
  inspect_linkages_lief (world_of app_tree)
    {| resolve_filenames := true; recurse := false; sysroot := ""; envroot := "" |}
    10 "/opt/app/bin/app"
  = Returns {[ OsPath.dirname "/opt/app/bin/app" +:+ "/../frameworks/sub/libbar.dylib" ]}.
Proof. vm_compute. reflexivity. Qed.

(** *** The worklist *)

(** C6, on the code: [todo.pop(0)] inside [for element in todo] removes the
    head while the iterator is at a later index, so entries leave the
    worklist unprocessed.  In [wide_diamond] neither B nor C is processed
    and D is not in the result; in [deep_diamond] D is in the result but
    its own references are never resolved (G is missing); in
    [diamond_small] D is processed once, and B never. *)
Theorem diamond_walks :
  walk_summary (world_of wide_diamond) default_options 20 "/opt/bin/A"
  = Returns ({[ "/opt/lib/libB.so"; "/opt/lib/libX.so"; "/opt/lib/libC.so";
                "/opt/lib/libY.so"; "/opt/lib/libW.so"; "/opt/lib/libZ.so" ]},
             ["/opt/bin/A"; "/opt/lib/libX.so"; "/opt/lib/libY.so"; "/opt/lib/libZ.so"])
  /\ walk_summary (world_of deep_diamond) default_options 20 "/opt/bin/A"
     = Returns ({[ "/opt/lib/libB.so"; "/opt/lib/libC.so"; "/opt/lib/libE.so";
                   "/opt/lib/libF.so"; "/opt/lib/libD.so"; "/opt/lib/libZ.so" ]},
                ["/opt/bin/A"; "/opt/lib/libC.so"; "/opt/lib/libF.so"; "/opt/lib/libZ.so"])
  /\ walk_summary (world_of diamond_small) default_options 20 "/opt/bin/A"
     = Returns ({[ "/opt/lib/libB.so"; "/opt/lib/libC.so"; "/opt/lib/libD.so";
                   "/opt/lib/libE.so" ]},
                ["/opt/bin/A"; "/opt/lib/libC.so"; "/opt/lib/libD.so"; "/opt/lib/libE.so"]).
Proof. repeat split; vm_compute; reflexivity. Qed.

(** C7, on the code: with the references of the root in the order B, C the
    walk drops B and returns D2 but not D1; in the order C, B it drops C and
    returns D1 but not D2. *)
Theorem reordered_root_differs :
  inspect_linkages_lief (world_of order_BC) default_options 20 "/opt/bin/A"
  = Returns {[ "/opt/lib/libB.so"; "/opt/lib/libC.so"; "/opt/lib/libD2.so" ]}
  /\ inspect_linkages_lief (world_of order_CB) default_options 20 "/opt/bin/A"
     = Returns {[ "/opt/lib/libB.so"; "/opt/lib/libC.so"; "/opt/lib/libD1.so" ]}
  /\ inspect_linkages_lief (world_of order_BC) default_options 20 "/opt/bin/A"
     <> inspect_linkages_lief (world_of order_CB) default_options 20 "/opt/bin/A".
Proof.
  split; [|split]; [vm_compute; reflexivity | vm_compute; reflexivity |].
  intros H.
  apply (f_equal (fun o => match o with
                           | Returns s => bool_decide ("/opt/lib/libD1.so" ∈ s)
                           | _ => false
                           end)) in H.
  vm_compute in H. discriminate H.
Qed.

(** *** The sysroot *)

(** C10, on the code: the walker uses [sysroot] as it is given.  With
    [/sysroot/] the default path [$SYSROOT/lib] becomes [/sysroot/lib] and
    the library is found; with the trimmed [/sysroot] it becomes
    [/sysrootlib] and the reference stays unresolved. *)
Theorem sysroot_not_trimmed :
  _trim_sysroot "/sysroot/" = "/sysroot"
  /\ inspect_linkages_lief (world_of sysroot_tree) (with_sysroot "/sysroot/") 10 "/opt/bin/app"
     = Returns {[ "/sysroot/lib/libc.so.6" ]}
  /\ inspect_linkages_lief (world_of sysroot_tree) (with_sysroot (_trim_sysroot "/sysroot/"))
       10 "/opt/bin/app"
     = Returns {[ "$RPATH/libc.so.6" ]}.
Proof. repeat split; vm_compute; reflexivity. Qed.

(** ** Fuel *)

(** A bind whose parts agree wherever the smaller run has an answer. *)
Lemma bind_mono {A B : Type} (m m' : outcome A) (k k' : A -> outcome B) :
  m ≫= k <> OutOfFuel ->
  (m <> OutOfFuel -> m' = m) ->
  (forall a, m = Returns a -> k a <> OutOfFuel -> k' a = k a) ->
  m' ≫= k' = m ≫= k.
Proof.
  intros Hmk Hm Hk. destruct m as [a|e|].
  - rewrite Hm by done. simpl in *. by apply Hk.
  - by rewrite Hm.
  - done.
Qed.

Lemma bind_returns {A B : Type} (m : outcome A) (k : A -> outcome B) (r : B) :
  m ≫= k = Returns r -> exists a, m = Returns a /\ k a = Returns r.
Proof. destruct m as [a|e|]; simpl; [eauto | done | done]. Qed.

Section Fuel.

Context (w : World) (opts : walk_options).

Lemma pe_parent_loop_mono (parents : gmap string (option string)) (n : nat) :
  forall (m : nat) (tmp_filename parent_exe_dirname : option string),
    n <= m ->
    pe_parent_loop w n parents tmp_filename parent_exe_dirname <> OutOfFuel ->
    pe_parent_loop w m parents tmp_filename parent_exe_dirname
    = pe_parent_loop w n parents tmp_filename parent_exe_dirname.
Proof.
  induction n as [|n IH]; intros m tmp acc Hle H; [done|].
  destruct m as [|m]; [lia|]. cbn [pe_parent_loop] in *.
  destruct (Py.truthy_opt tmp); [|done].
  apply bind_mono; [done | done |]. intros next _ Hnext. apply IH; [lia | done].
Qed.

Lemma transitive_loop_mono (rpaths : gmap string (list string))
    (parents : gmap string (option string)) (n : nat) :
  forall (m : nat) (tmp_filename : option string) (rpaths_transitive : list string),
    n <= m ->
    transitive_loop n rpaths parents tmp_filename rpaths_transitive <> OutOfFuel ->
    transitive_loop m rpaths parents tmp_filename rpaths_transitive
    = transitive_loop n rpaths parents tmp_filename rpaths_transitive.
Proof.
  induction n as [|n IH]; intros m tmp acc Hle H; [done|].
  destruct m as [|m]; [lia|]. cbn [transitive_loop] in *.
  destruct (Py.truthy_opt tmp); [|done].
  apply bind_mono; [done | done |]. intros own _ Hown.
  apply bind_mono; [done | done |]. intros next _ Hnext. apply IH; [lia | done].
Qed.

Lemma process_mono (exedir : string) (default_paths : list string)
    (element : string * option Binary) (st : walk_state) (n m : nat) :
  n <= m ->
  process w opts n exedir default_paths element st <> OutOfFuel ->
  process w opts m exedir default_paths element st
  = process w opts n exedir default_paths element st.
Proof.
  intros Hle H. unfold process in *.
  apply bind_mono; [done | done |]. intros key _ Hkey.
  destruct (element.2) as [binary|]; [|done].
  case_bool_decide; [done|].
  apply bind_mono; [done | |].
  - destruct (bool_decide (format binary = PE)); [|done].
    intros Hp. by apply pe_parent_loop_mono.
  - intros parent_exe_dirname _ Hrest.
    apply bind_mono; [done | | done].
    destruct (bool_decide (format binary = PE)); [done|].
    intros Ht. by apply transitive_loop_mono.
Qed.




End Fuel.



(** ** The visited set *)

Section Visited.

Context (w : World) (opts : walk_options).

Lemma get_uniqueness_key_binary (b : Binary) :
  get_uniqueness_key w (FileObj (ObjBinary b)) = Returns (key_of b).
Proof.
  unfold get_uniqueness_key, key_of. simpl.
  destruct (format b); [|done|done].
  destruct (recognized_class b); [|done]. by destruct (soname_entries b).
Qed.








End Visited.



(** ** Order of the root's references, without recursion *)

Lemma filter_permutation {A : Type} (f : A -> bool) (l l' : list A) :
  l ≡ₚ l' -> List.filter f l ≡ₚ List.filter f l'.
Proof.
  induction 1 as [|x l l' _ IH|x y l|l l' l'' _ IH1 _ IH2]; simpl.
  - done.
  - destruct (f x); [by constructor | done].
  - destruct (f x), (f y); try done. apply perm_swap.
  - by etrans.
Qed.

Lemma remove_first_permutation (x : string) (l : list string) :
  x ∈ l -> l ≡ₚ x :: remove_first x l.
Proof.
  induction l as [|y l IH]; intros Hin; [by apply not_elem_of_nil in Hin|].
  cbn [remove_first]. destruct (String.eqb y x) eqn:Heq.
  - apply String.eqb_eq in Heq as ->. done.
  - apply elem_of_cons in Hin as [->|Hin]; [by rewrite String.eqb_refl in Heq|].
    rewrite (IH Hin) at 1. apply perm_swap.
Qed.

Lemma without_self_permutation (x : string) (l l' : list string) :
  l ≡ₚ l' ->
  (if bool_decide (x ∈ l) then remove_first x l else l)
  ≡ₚ (if bool_decide (x ∈ l') then remove_first x l' else l').
Proof.
  intros Hperm. do 2 case_bool_decide.
  - apply (Permutation.Permutation_cons_inv (a := x)).
    by rewrite <- !remove_first_permutation.
  - by rewrite <- Hperm in *.
  - by rewrite Hperm in *.
  - done.
Qed.

Section Reorder.

Context (w : World) (opts : walk_options).
Context (filename : string) (b : Binary) (libs' : list string).
Hypothesis Hparse : lief_parse w filename = Parsed b.
Hypothesis Hperm : libraries b ≡ₚ libs'.
Hypothesis Hnorec : recurse opts = false.

Lemma first_candidate_set_root (unresolved exedir selfdir sysroot : string)
    (resolved_rpath : option string) (these_rpaths : list string) :
  first_candidate (set_root w filename (reorder b libs')) unresolved exedir selfdir sysroot
    resolved_rpath these_rpaths
  = first_candidate w unresolved exedir selfdir sysroot resolved_rpath these_rpaths.
Proof.
  induction these_rpaths as [|rpath rest IH]; [done|].
  rewrite !first_candidate_cons. cbv zeta. rewrite IH. reflexivity.
Qed.

Lemma recorded_set_root (exedir : string) (rpaths_transitive default_paths : list string)
    (orig : string) :
  recorded (set_root w filename (reorder b libs')) opts (reorder b libs') exedir
    rpaths_transitive default_paths orig
  = recorded w opts b exedir rpaths_transitive default_paths orig.
Proof.
  unfold recorded, _get_resolved_location.
  rewrite first_candidate_set_root. reflexivity.
Qed.

Lemma codefile_type_set_root (f : string) :
  codefile_type (set_root w filename (reorder b libs')) (FileName f)
  = codefile_type w (FileName f).
Proof.
  unfold codefile_type, ensure_binary. cbn [os_path_exists lief_parse set_root].
  destruct (os_path_exists w f); [|done]. cbn [negb].
  destruct (String.eqb f filename) eqn:Heq; [|done].
  apply String.eqb_eq in Heq as ->. rewrite Hparse. reflexivity.
Qed.

Lemma pe_parent_loop_set_root (parents : gmap string (option string)) (fuel : nat) :
  forall tmp_filename parent_exe_dirname : option string,
    pe_parent_loop (set_root w filename (reorder b libs')) fuel parents
      tmp_filename parent_exe_dirname
    = pe_parent_loop w fuel parents tmp_filename parent_exe_dirname.
Proof.
  induction fuel as [|fuel IH]; intros tmp acc; [done|].
  cbn [pe_parent_loop]. rewrite codefile_type_set_root.
  destruct (Py.truthy_opt tmp); [|done].
  destruct (getitem parents (default "" tmp)); [|done|done]. apply IH.
Qed.

Lemma get_libraries_reorder :
  get_libraries (set_root w filename (reorder b libs')) (FileObj (ObjBinary (reorder b libs')))
  ≡ₚ get_libraries w (FileObj (ObjBinary b)).
Proof.
  unfold get_libraries, ensure_binary. cbn [format reorder libraries].
  destruct (format b); cbn [bool_decide decide_rel]; try done.
  rewrite bool_decide_eq_true_2 by done.
  apply Permutation_map, filter_permutation. done.
Qed.

(** Without recursion every reference only adds its record to the result. *)
Lemma resolve_one_norecurse (binary : Binary) (filename2 exedir : string)
    (rpaths_transitive default_paths : list string) (st : walk_state) (orig : string) :
  exists st',
    resolve_one w opts binary filename2 exedir rpaths_transitive default_paths st orig
    = Returns st'
    /\ results st'
       = {[ recorded w opts binary exedir rpaths_transitive default_paths orig ]} ∪ results st
    /\ todo st' = todo st.
Proof.
  unfold resolve_one, recorded. rewrite Hnorec. cbn [andb].
  destruct (resolve_filenames opts); eexists; (split; [reflexivity | split; reflexivity]).
Qed.

Lemma resolve_all_norecurse (binary : Binary) (filename2 exedir : string)
    (rpaths_transitive default_paths : list string) (these_orig : list string) :
  forall st : walk_state,
    exists st',
      resolve_all w opts binary filename2 exedir rpaths_transitive default_paths st these_orig
      = Returns st'
      /\ results st'
         = list_to_set (map (recorded w opts binary exedir rpaths_transitive default_paths)
                            these_orig) ∪ results st
      /\ todo st' = todo st.
Proof.
  induction these_orig as [|orig rest IH]; intros st.
  - exists st. split; [done | split; [|done]].
    cbn [map]. rewrite list_to_set_nil. by rewrite (left_id_L ∅ (∪)).
  - cbn [resolve_all map].
    destruct (resolve_one_norecurse binary filename2 exedir rpaths_transitive
                default_paths st orig) as (st1 & H1 & Hres1 & Htodo1).
    destruct (IH st1) as (st' & Hall & Hres & Htodo).
    exists st'. rewrite H1. split; [exact Hall | split; [|congruence]].
    rewrite Hres, Hres1, list_to_set_cons.
    apply set_eq; intros x; rewrite !elem_of_union; tauto.
Qed.

End Reorder.

(** The turn of the loop on the root, in the two worlds. *)
Lemma process_root_reorder (w : World) (opts : walk_options) (filename : string)
    (b : Binary) (libs' : list string) (fuel : nat) (exedir : string)
    (default_paths : list string) (st : walk_state) :
  lief_parse w filename = Parsed b ->
  libraries b ≡ₚ libs' ->
  recurse opts = false ->
  todo st = [] ->
  outcome_rel same_results_done
    (process (set_root w filename (reorder b libs')) opts fuel exedir default_paths
       (filename, Some (reorder b libs')) st)
    (process w opts fuel exedir default_paths (filename, Some b) st).
Proof.
  intros Hparse Hperm Hnorec Htodo. unfold process. cbn [fst snd of_parse].
  rewrite !get_uniqueness_key_binary.
  change (key_of (reorder b libs')) with (key_of b).
  change (format (reorder b libs')) with (format b).
  cbn [mbind outcome_bind].
  case_bool_decide; [done|].
  rewrite (pe_parent_loop_set_root w filename b libs' Hparse).
  match goal with
  | |- outcome_rel _ (?m ≫= _) _ => destruct m as [parent_exe_dirname| |]; [|done|done]
  end.
  cbn [mbind outcome_bind].
  change (get_rpaths (set_root w filename (reorder b libs'))
            (FileObj (ObjBinary (reorder b libs'))))
    with (get_rpaths w (FileObj (ObjBinary b))).
  match goal with
  | |- outcome_rel _ (?m ≫= _) _ => destruct m as [rpaths_transitive| |]; [|done|done]
  end.
  destruct (resolve_all_norecurse (set_root w filename (reorder b libs')) opts Hnorec
              (reorder b libs') filename exedir rpaths_transitive default_paths
              (these_orig_of (reorder b libs')
                 (if bool_decide (filename ∈ get_libraries (set_root w filename (reorder b libs'))
                                               (FileObj (ObjBinary (reorder b libs'))))
                  then remove_first filename
                         (get_libraries (set_root w filename (reorder b libs'))
                            (FileObj (ObjBinary (reorder b libs'))))
                  else get_libraries (set_root w filename (reorder b libs'))
                         (FileObj (ObjBinary (reorder b libs')))))
              {| already_seen := already_seen st; results := results st;
                 rpaths_by_binary :=
                   <[filename := get_rpaths w (FileObj (ObjBinary b)) parent_exe_dirname
                                   (Py.replace (envroot opts) OsPath.sep "/") (sysroot opts)]>
                     (rpaths_by_binary st);
                 parents_by_filename := parents_by_filename st;
                 todo := todo st; trace := trace st ++ [filename] |})
    as (st1' & H1' & Hres1' & Htodo1').
  destruct (resolve_all_norecurse w opts Hnorec
              b filename exedir rpaths_transitive default_paths
              (these_orig_of b
                 (if bool_decide (filename ∈ get_libraries w (FileObj (ObjBinary b)))
                  then remove_first filename (get_libraries w (FileObj (ObjBinary b)))
                  else get_libraries w (FileObj (ObjBinary b))))
              {| already_seen := already_seen st; results := results st;
                 rpaths_by_binary :=
                   <[filename := get_rpaths w (FileObj (ObjBinary b)) parent_exe_dirname
                                   (Py.replace (envroot opts) OsPath.sep "/") (sysroot opts)]>
                     (rpaths_by_binary st);
                 parents_by_filename := parents_by_filename st;
                 todo := todo st; trace := trace st ++ [filename] |})
    as (st1 & H1 & Hres1 & Htodo1).
  cbn [mbind outcome_bind]. rewrite H1', H1. cbn [mbind outcome_bind outcome_rel].
  unfold same_results_done. cbn [results todo] in *.
  split; [|split; congruence].
  rewrite Hres1', Hres1. f_equal.
  rewrite (map_ext _ _ (recorded_set_root w opts filename b libs' exedir
                          rpaths_transitive default_paths)).
  apply list_to_set_perm_L, Permutation_map.
  change (these_orig_of (reorder b libs')) with (these_orig_of b).
  apply Permutation_map, without_self_permutation.
  by apply get_libraries_reorder.
Qed.

(** Without recursion the result does not depend on the order of the
    root's library-reference list: replacing the list by a permutation of
    it leaves the outcome of [inspect_linkages_lief] as it is, for every
    fuel. *)
Theorem reorder_invariant_without_recursion (w : World) (opts : walk_options)
    (fuel : nat) (filename : string) (b : Binary) (libs' : list string) :
  recurse opts = false ->
  lief_parse w filename = Parsed b ->
  libraries b ≡ₚ libs' ->
  inspect_linkages_lief (set_root w filename (reorder b libs')) opts fuel filename
  = inspect_linkages_lief w opts fuel filename.
Proof.
  intros Hnorec Hparse Hperm. unfold inspect_linkages_lief, walk.
  cbn [lief_parse set_root]. rewrite String.eqb_refl, Hparse.
  change (default_paths_of (reorder b libs')) with (default_paths_of b).
  destruct fuel as [|fuel]; [done|].
  cbn [while_todo todo for_todo]. cbn [lookup list_lookup].
  pose proof (process_root_reorder w opts filename b libs' (S fuel)
                (OsPath.dirname filename) (default_paths_of b)
                (pop0 {| already_seen := ∅; results := ∅; rpaths_by_binary := ∅;
                         parents_by_filename := {[filename := None]};
                         todo := [(filename, Some b)]; trace := [] |})
                Hparse Hperm Hnorec eq_refl) as Hrel.
  unfold pop0 in *. cbn [already_seen results rpaths_by_binary parents_by_filename
                         todo trace tail] in *.
  revert Hrel.
  match goal with
  | |- outcome_rel _ ?o' ?o -> _ =>
      destruct o' as [st1'| |]; destruct o as [st1| |]
  end; cbn [outcome_rel]; intros Hrel; try (exfalso; exact Hrel);
    [ | by rewrite Hrel | reflexivity ].
  destruct Hrel as (Hres & Ht' & Ht). cbn [mbind outcome_bind].
  destruct fuel as [|fuel]; [done|].
  cbn [for_todo]. rewrite Ht', Ht. cbn [lookup list_lookup mbind outcome_bind].
  cbn [while_todo]. rewrite Ht', Ht. cbn [mbind outcome_bind]. by rewrite Hres.
Qed.

Lemma reorder_invariant_without_recursion_witness :
  inspect_linkages_lief
    (set_root (world_of order_BC) "/opt/bin/A"
       (reorder (root ["libB.so"; "libC.so"]).2 ["libC.so"; "libB.so"]))
    {| resolve_filenames := true; recurse := false; sysroot := ""; envroot := "" |}
    20 "/opt/bin/A"
  = inspect_linkages_lief (world_of order_BC)
      {| resolve_filenames := true; recurse := false; sysroot := ""; envroot := "" |}
      20 "/opt/bin/A".
Proof.
  apply (reorder_invariant_without_recursion (world_of order_BC)).
  - reflexivity.
  - reflexivity.
  - apply perm_swap.
Defined.

(** ** Trimming the sysroot *)

Lemma endswith_nonempty (s p : string) :
  p <> EmptyString -> Py.endswith s p = true -> s <> EmptyString.
Proof.
  intros Hp H ->. cbn in H. destruct p; [done|discriminate].
Qed.

Lemma drop_last_length (s : string) :
  s <> EmptyString -> S (String.length (Py.drop_last s)) = String.length s.
Proof.
  induction s as [|c s IH]; [done|]. intros _.
  destruct s as [|c' s']; [done|].
  change (Py.drop_last (String c (String c' s')))
    with (String c (Py.drop_last (String c' s'))).
  cbn [String.length]. by rewrite IH.
Qed.

(** The length of the string is fuel enough for the loop. *)
Lemma trim_loop_done (fuel : nat) :
  forall s : string,
    String.length s <= fuel ->
    Py.endswith (trim_loop fuel s) "/" = false
    /\ Py.endswith (trim_loop fuel s) "\" = false.
Proof.
  induction fuel as [|fuel IH]; intros s Hlen.
  - destruct s; [done | cbn in Hlen; lia].
  - cbn [trim_loop].
    destruct (Py.endswith s "/") eqn:H1; [|destruct (Py.endswith s "\") eqn:H2]; cbn [orb].
    + apply IH. apply endswith_nonempty in H1; [|done].
      apply drop_last_length in H1. lia.
    + apply IH. apply endswith_nonempty in H2; [|done].
      apply drop_last_length in H2. lia.
    + done.
Qed.

Lemma trim_loop_fixed (fuel : nat) (s : string) :
  Py.endswith s "/" = false -> Py.endswith s "\" = false -> trim_loop fuel s = s.
Proof. intros H1 H2. destruct fuel; [done|]. cbn [trim_loop]. by rewrite H1, H2. Qed.

(** [_trim_sysroot] itself does what its name says: its result ends in
    neither separator, and trimming twice is trimming once. *)
Theorem trim_sysroot_trims (sysroot : string) :
  Py.endswith (_trim_sysroot sysroot) "/" = false
  /\ Py.endswith (_trim_sysroot sysroot) "\" = false
  /\ _trim_sysroot (_trim_sysroot sysroot) = _trim_sysroot sysroot.
Proof.
  destruct (trim_loop_done (String.length sysroot) sysroot) as [H1 H2]; [done|].
  split; [exact H1 | split; [exact H2|]].
  unfold _trim_sysroot at 1. by apply trim_loop_fixed.
Qed.

(** ** The resolver: search order, forced rpath, frame *)

Section ResolverOrder.

Context (w : World).

(** Candidates that do not exist are passed over. *)
Lemma first_candidate_skip (unresolved exedir selfdir sysroot : string)
    (pre rest : list string) :
  (forall p, p ∈ pre ->
     os_path_exists w (substituted unresolved p selfdir exedir) = false) ->
  first_candidate w unresolved exedir selfdir sysroot None (pre ++ rest)
  = first_candidate w unresolved exedir selfdir sysroot None rest.
Proof.
  induction pre as [|p pre IH]; intros Hno; [done|].
  rewrite <- app_comm_cons, first_candidate_cons. cbv zeta.
  rewrite (Hno p) by apply list_elem_of_here.
  rewrite exists_sysroot_absent. cbn [Py.truthy_opt orb pyval_truthy].
  apply IH. intros q Hq. apply Hno. by apply list_elem_of_further.
Qed.

(** The flag of an accepted candidate is [exists and sysroot and
    resolved.startswith(sysroot)] for its own path. *)
Lemma first_candidate_flag (unresolved exedir selfdir sysroot : string)
    (resolved_rpath : option string) (these_rpaths : list string)
    (resolved rpath : string) (exists_sysroot : pyval) :
  first_candidate w unresolved exedir selfdir sysroot resolved_rpath these_rpaths
  = Some (resolved, rpath, exists_sysroot) ->
  exists_sysroot
  = py_and (os_path_exists w resolved)
           (if Py.truthy sysroot then PyBool (Py.startswith resolved sysroot)
            else PyStr sysroot).
Proof.
  induction these_rpaths as [|r rest IH]; [discriminate|].
  rewrite first_candidate_cons. cbv zeta.
  destruct (_ || _ || _); [|exact IH]. by intros [= <- <- <-].
Qed.

(** A truthy flag: the path exists, a sysroot is set and the path is
    under it. *)
Lemma flag_truthy (sysroot resolved : string) :
  pyval_truthy (py_and (os_path_exists w resolved)
                  (if Py.truthy sysroot then PyBool (Py.startswith resolved sysroot)
                   else PyStr sysroot)) = true ->
  os_path_exists w resolved = true
  /\ Py.truthy sysroot = true
  /\ Py.startswith resolved sysroot = true.
Proof.
  destruct (os_path_exists w resolved); [|discriminate].
  destruct (Py.truthy sysroot) eqn:Hs; cbn [py_and pyval_truthy]; [done|].
  by rewrite Hs.
Qed.

End ResolverOrder.

(** Search order.  For a reference that starts with [$RPATH] and no forced
    rpath, the candidate used is the first one, in the order transitive
    search paths, [LD_LIBRARY_PATH] entries, default paths, whose
    substituted path exists: every earlier candidate is passed over and no
    later one is looked at. *)
Theorem first_existing_candidate_wins (w : World) (codefile : Binary)
    (unresolved exedir selfdir : string) (rpaths_transitive : list string)
    (LD_LIBRARY_PATH : string) (default_paths : list string) (sysroot : string)
    (pre post : list string) (dir : string) :
  Py.startswith unresolved "$RPATH" = true ->
  candidates rpaths_transitive LD_LIBRARY_PATH default_paths sysroot = pre ++ dir :: post ->
  (forall p, p ∈ pre ->
     os_path_exists w (substituted unresolved p selfdir exedir) = false) ->
  os_path_exists w (substituted unresolved dir selfdir exedir) = true ->
  (_get_resolved_location w codefile unresolved exedir selfdir rpaths_transitive
     LD_LIBRARY_PATH default_paths sysroot None).1
  = (substituted unresolved dir selfdir exedir, Some dir).
Proof.
  intros Hstart Hcands Hpre Hdir. rewrite rpath_branch by exact Hstart.
  rewrite Hcands, first_candidate_skip by exact Hpre.
  rewrite first_candidate_cons. cbv zeta. rewrite Hdir. reflexivity.
Qed.

Lemma first_existing_candidate_wins_witness :
  (_get_resolved_location (world_of diamond_small) both_paths "$RPATH/libD.so"
     "/opt/bin" "/opt/bin" ["/nowhere"] "/opt/lib:/opt/bin" ["$SYSROOT/lib"] "/" None).1
  = ("/opt/lib/libD.so", Some "/opt/lib").
Proof.
  apply (first_existing_candidate_wins (world_of diamond_small) both_paths "$RPATH/libD.so"
           "/opt/bin" "/opt/bin" ["/nowhere"] "/opt/lib:/opt/bin" ["$SYSROOT/lib"] "/"
           ["/nowhere"] ["/opt/bin"; "/lib"] "/opt/lib").
  - reflexivity.
  - reflexivity.
  - intros p ->%list_elem_of_singleton. reflexivity.
  - reflexivity.
Defined.

(** Forced rpath.  When a non-empty [resolved_rpath] is passed, a reference
    that starts with [$RPATH] is resolved through it alone: the path is the
    substitution of that rpath whether or not it exists on disk, and the
    search paths, [LD_LIBRARY_PATH] and the default paths play no part. *)
Theorem forced_rpath_is_used (w : World) (codefile : Binary)
    (unresolved exedir selfdir : string) (rpaths_transitive : list string)
    (LD_LIBRARY_PATH : string) (default_paths : list string) (sysroot forced : string) :
  Py.startswith unresolved "$RPATH" = true ->
  Py.truthy forced = true ->
  (_get_resolved_location w codefile unresolved exedir selfdir rpaths_transitive
     LD_LIBRARY_PATH default_paths sysroot (Some forced)).1
  = (substituted unresolved forced selfdir exedir, Some forced).
Proof.
  intros Hstart Hforced. unfold _get_resolved_location. rewrite Hstart.
  cbn [Py.truthy_opt default]. rewrite Hforced.
  rewrite first_candidate_cons. cbv zeta. cbn [Py.truthy_opt]. rewrite Hforced.
  reflexivity.
Qed.

Lemma forced_rpath_is_used_witness :
  (_get_resolved_location (world_of []) both_paths "$RPATH/libfoo.so" "/opt/bin" "/opt/bin"
     ["/opt/run"] "/usr/local/lib" ["$SYSROOT/lib"] "/sysroot/" (Some "/forced")).1
  = ("/forced/libfoo.so", Some "/forced").
Proof.
  apply (forced_rpath_is_used (world_of []) both_paths "$RPATH/libfoo.so"); reflexivity.
Defined.

(** Frame.  A reference that does not start with [$RPATH] is resolved
    without the search-path stack: the result is the same for any two
    choices of transitive search paths, [LD_LIBRARY_PATH], default paths and
    forced rpath, and it never names a used rpath. *)
Theorem search_stack_not_consulted (w : World) (codefile : Binary)
    (unresolved exedir selfdir sysroot : string)
    (rpaths_transitive rpaths_transitive' : list string)
    (LD_LIBRARY_PATH LD_LIBRARY_PATH' : string)
    (default_paths default_paths' : list string)
    (resolved_rpath resolved_rpath' : option string) :
  Py.startswith unresolved "$RPATH" = false ->
  _get_resolved_location w codefile unresolved exedir selfdir rpaths_transitive
    LD_LIBRARY_PATH default_paths sysroot resolved_rpath
  = _get_resolved_location w codefile unresolved exedir selfdir rpaths_transitive'
      LD_LIBRARY_PATH' default_paths' sysroot resolved_rpath'
  /\ (_get_resolved_location w codefile unresolved exedir selfdir rpaths_transitive
        LD_LIBRARY_PATH default_paths sysroot resolved_rpath).1.2 = None.
Proof.
  intros Hstart. unfold _get_resolved_location. rewrite Hstart.
  split; [reflexivity|].
  destruct (_ || _); [reflexivity|]. by destruct (Py.startswith unresolved "/").
Qed.

Lemma search_stack_not_consulted_witness :
  _get_resolved_location (world_of diamond_small) both_paths "$SELFDIR/../lib/libD.so"
    "/opt/bin" "/opt/bin" ["/a"] "/b" ["/c"] "" (Some "/d")
  = _get_resolved_location (world_of diamond_small) both_paths "$SELFDIR/../lib/libD.so"
      "/opt/bin" "/opt/bin" [] "" [] "" None.
Proof.
  apply (search_stack_not_consulted (world_of diamond_small) both_paths
           "$SELFDIR/../lib/libD.so"). reflexivity.
Defined.

(** In-sysroot flag.  Whenever the third component of the result is truthy,
    a sysroot was given, the returned path exists on disk and it starts
    with the sysroot. *)
Theorem in_sysroot_flag_sound (w : World) (codefile : Binary)
    (unresolved exedir selfdir : string) (rpaths_transitive : list string)
    (LD_LIBRARY_PATH : string) (default_paths : list string) (sysroot : string)
    (resolved_rpath : option string) :
  let r := _get_resolved_location w codefile unresolved exedir selfdir rpaths_transitive
             LD_LIBRARY_PATH default_paths sysroot resolved_rpath in
  pyval_truthy r.2 = true ->
  os_path_exists w r.1.1 = true
  /\ Py.truthy sysroot = true
  /\ Py.startswith r.1.1 sysroot = true.
Proof.
  cbv zeta. unfold _get_resolved_location.
  destruct (Py.startswith unresolved "$RPATH").
  - destruct (first_candidate _ _ _ _ _ _ _) as [[[resolved rpath] flag]|] eqn:Hfc;
      [|discriminate].
    apply first_candidate_flag in Hfc as ->. cbn [fst snd]. apply flag_truthy.
  - destruct (_ || _); [cbn [fst snd]; apply flag_truthy|].
    by destruct (Py.startswith unresolved "/").
Qed.

Lemma in_sysroot_flag_sound_witness :
  os_path_exists (world_of sysroot_tree) "/sysroot/lib/libc.so.6" = true
  /\ Py.truthy "/sysroot/" = true
  /\ Py.startswith "/sysroot/lib/libc.so.6" "/sysroot/" = true.
Proof.
  apply (in_sysroot_flag_sound (world_of sysroot_tree) both_paths "$RPATH/libc.so.6"
           "/opt/bin" "/opt/bin" [] "" ["$SYSROOT/lib"] "/sysroot/" None).
  reflexivity.
Defined.

(** ** RUNPATH, RPATH and files that are not there *)

(** [get_runpaths] against [get_rpaths].  Whenever [get_runpaths] finds a
    directory, [get_rpaths] returns the same list, whatever [exe_dirname],
    [envroot] and [windows_root] are; when an ELF binary of class 32 or 64
    has no RUNPATH entry, [get_runpaths] is empty and [get_rpaths] falls
    back to the colon-split RPATH entries. *)
Theorem runpaths_are_the_rpaths (w : World) (file : file_arg)
    (exe_dirname : option string) (envroot windows_root : string) :
  (get_runpaths w file <> [] ->
   get_rpaths w file exe_dirname envroot windows_root = get_runpaths w file)
  /\ (forall binary,
        ensure_binary w file = ObjBinary binary ->
        format binary = ELF -> recognized_class binary = true ->
        runpath_entries binary = [] ->
        get_runpaths w file = []
        /\ get_rpaths w file exe_dirname envroot windows_root
           = map (from_os_varnames binary)
               (flat_map (Py.split ":") (rpath_entries binary))).
Proof.
  split.
  - unfold get_runpaths, get_rpaths.
    destruct (ensure_binary w file) as [binary| |]; [|done|done].
    destruct (format binary); cbn [bool_decide decide_rel andb]; [|done|done].
    rewrite bool_decide_eq_true_2 by done. cbn [andb].
    destruct (recognized_class binary); [|done].
    destruct (runpath_entries binary) as [|r rs]; [done|]. done.
  - intros binary Hb Hf Hc Hr. unfold get_runpaths, get_rpaths.
    rewrite Hb, Hf, Hc, Hr. by rewrite bool_decide_eq_true_2.
Qed.

Lemma runpaths_are_the_rpaths_witness :
  get_rpaths (world_of []) (FileObj (ObjBinary both_paths)) (Some "C:/x") "env" "win"
  = get_runpaths (world_of []) (FileObj (ObjBinary both_paths)).
Proof.
  apply (runpaths_are_the_rpaths (world_of []) (FileObj (ObjBinary both_paths))).
  discriminate.
Defined.

(** A file name that does not exist, or that the parser does not read:
    [get_libraries], [get_rpaths] and [get_runpaths] return the empty list,
    [codefile_type] returns [None], and [get_uniqueness_key] raises. *)
Theorem absent_file_gives_nothing (w : World) (f : string)
    (exe_dirname : option string) (envroot windows_root : string) :
  os_path_exists w f = false \/ (forall b, lief_parse w f <> Parsed b) ->
  get_libraries w (FileName f) = []
  /\ get_rpaths w (FileName f) exe_dirname envroot windows_root = []
  /\ get_runpaths w (FileName f) = []
  /\ codefile_type w (FileName f) = None
  /\ get_uniqueness_key w (FileName f) = Raises AttributeError.
Proof.
  intros H.
  assert (Hobj : ensure_binary w (FileName f) = ObjEmptyList
                 \/ ensure_binary w (FileName f) = ObjNone).
  { unfold ensure_binary. destruct H as [->|H]; [by left|].
    destruct (os_path_exists w f); [|by left]. cbn [negb].
    destruct (lief_parse w f) as [b| |]; [by destruct (H b) | by right | by right]. }
  unfold get_libraries, get_rpaths, get_runpaths, codefile_type, get_uniqueness_key.
  by destruct Hobj as [-> | ->].
Qed.

Lemma absent_file_gives_nothing_witness :
  get_libraries linker_script_world (FileName "/usr/lib/libc.so") = []
  /\ get_rpaths linker_script_world (FileName "/usr/lib/libc.so") None "" "" = []
  /\ get_runpaths linker_script_world (FileName "/usr/lib/libc.so") = []
  /\ codefile_type linker_script_world (FileName "/usr/lib/libc.so") = None
  /\ get_uniqueness_key linker_script_world (FileName "/usr/lib/libc.so")
     = Raises AttributeError.
Proof.
  apply (absent_file_gives_nothing linker_script_world "/usr/lib/libc.so").
  right. intros b. discriminate.
Defined.

(** ** The root's direct references *)

Section Direct.

Context (w : World) (opts : walk_options).

(** Every reference adds exactly its record to the result. *)
Lemma resolve_one_results (binary : Binary) (filename2 exedir : string)
    (rpaths_transitive default_paths : list string) (st st' : walk_state) (orig : string) :
  resolve_one w opts binary filename2 exedir rpaths_transitive default_paths st orig
  = Returns st' ->
  results st'
  = {[ recorded w opts binary exedir rpaths_transitive default_paths orig ]} ∪ results st.
Proof.
  unfold resolve_one, recorded.
  set (r0 := (_get_resolved_location w binary orig exedir exedir rpaths_transitive
                "" default_paths (sysroot opts) None).1.1).
  destruct (resolve_filenames opts);
    (destruct (recurse opts && os_path_exists w r0);
     [ destruct (lief_parse w r0) as [b'| |]; [| |done] | ]);
    by intros [= <-].
Qed.

Lemma resolve_all_results (binary : Binary) (filename2 exedir : string)
    (rpaths_transitive default_paths : list string) (these_orig : list string) :
  forall st st' : walk_state,
    resolve_all w opts binary filename2 exedir rpaths_transitive default_paths st these_orig
    = Returns st' ->
    results st'
    = list_to_set (map (recorded w opts binary exedir rpaths_transitive default_paths)
                       these_orig) ∪ results st.
Proof.
  induction these_orig as [|orig rest IH]; intros st st' H.
  - injection H as <-. cbn [map]. rewrite list_to_set_nil. by rewrite (left_id_L ∅ (∪)).
  - cbn [resolve_all] in H. apply bind_returns in H as (st1 & H1 & H2).
    apply resolve_one_results in H1. apply IH in H2.
    rewrite H2, H1. cbn [map]. rewrite list_to_set_cons.
    apply set_eq; intros x; rewrite !elem_of_union; tauto.
Qed.

(** The result only grows. *)
Lemma process_results_grow (fuel : nat) (exedir : string) (default_paths : list string)
    (element : string * option Binary) (st st' : walk_state) :
  process w opts fuel exedir default_paths element st = Returns st' ->
  results st ⊆ results st'.
Proof.
  unfold process. intros H. apply bind_returns in H as (key & _ & H).
  destruct (element.2) as [binary|]; [|done].
  case_bool_decide; [by injection H as <-|].
  apply bind_returns in H as (p & _ & H).
  apply bind_returns in H as (rt & _ & H).
  apply bind_returns in H as (st2 & Hall & H).
  apply bind_returns in H as (key' & _ & H). injection H as <-.
  apply resolve_all_results in Hall. cbn [results] in *. rewrite Hall.
  apply union_subseteq_r.
Qed.

Lemma for_todo_results_grow (exedir : string) (default_paths : list string) (fuel : nat) :
  forall (i : nat) (st st' : walk_state),
    for_todo w opts fuel exedir default_paths i st = Returns st' ->
    results st ⊆ results st'.
Proof.
  induction fuel as [|fuel IH]; intros i st st' H; [done|].
  cbn [for_todo] in H. destruct (todo st !! i) as [element|]; [|by injection H as <-].
  apply bind_returns in H as (st1 & H1 & H2).
  apply process_results_grow in H1. apply IH in H2. cbn [pop0 results] in H1.
  by etrans.
Qed.

Lemma while_todo_results_grow (exedir : string) (default_paths : list string) (fuel : nat) :
  forall st st' : walk_state,
    while_todo w opts fuel exedir default_paths st = Returns st' ->
    results st ⊆ results st'.
Proof.
  induction fuel as [|fuel IH]; intros st st' H; [done|].
  cbn [while_todo] in H. destruct (todo st) as [|e rest]; [by injection H as <-|].
  apply bind_returns in H as (st1 & H1 & H2).
  apply for_todo_results_grow in H1. apply IH in H2. by etrans.
Qed.

Context (filename : string) (b : Binary).

(** The parent-chain loops on the root, whose only parent is [None]. *)
Lemma pe_parent_loop_root (fuel : nat) :
  2 <= fuel ->
  pe_parent_loop w fuel {[filename := None]} (Some filename) None
  = Returns (if Py.truthy filename &&
                bool_decide (codefile_type w (FileName filename) = Some "EXEfile")
             then Some (OsPath.dirname filename) else None).
Proof.
  intros Hfuel. destruct fuel as [|[|fuel]]; [lia | lia |].
  cbn [pe_parent_loop Py.truthy_opt default negb andb].
  destruct (Py.truthy filename); [|done]. cbn [andb].
  unfold getitem. rewrite lookup_singleton_eq. reflexivity.
Qed.

Lemma transitive_loop_root (fuel : nat) (rpaths : gmap string (list string))
    (own : list string) :
  2 <= fuel ->
  rpaths !! filename = Some own ->
  transitive_loop fuel rpaths {[filename := None]} (Some filename) []
  = Returns (if Py.truthy filename then own else []).
Proof.
  intros Hfuel Hown. destruct fuel as [|fuel]; [lia|].
  cbn [transitive_loop Py.truthy_opt].
  change (default "" (Some filename)) with filename.
  destruct (Py.truthy filename); [|done].
  unfold getitem. rewrite Hown, lookup_singleton_eq. cbn [mbind outcome_bind].
  destruct fuel as [|fuel]; [lia|].
  cbn [transitive_loop Py.truthy_opt]. by rewrite app_nil_r.
Qed.

(** The state in which the root is processed. *)
Let start : walk_state :=
  {| already_seen := ∅; results := ∅; rpaths_by_binary := ∅;
     parents_by_filename := {[filename := None]}; todo := []; trace := [] |}.

(** With fuel for its two parent-chain loops, the turn of the loop on the
    root resolves the root's references against the root's search paths. *)
Lemma process_root_eq (fuel : nat) :
  2 <= fuel ->
  process w opts fuel (OsPath.dirname filename) (default_paths_of b)
    (filename, Some b) start
  = st' ← resolve_all w opts b filename (OsPath.dirname filename)
            (root_search_paths w opts filename b) (default_paths_of b)
            {| already_seen := ∅; results := ∅;
               rpaths_by_binary :=
                 {[ filename := get_rpaths w (FileObj (ObjBinary b))
                                  (root_host_dir w filename b)
                                  (Py.replace (envroot opts) OsPath.sep "/")
                                  (sysroot opts) ]};
               parents_by_filename := {[filename := None]};
               todo := []; trace := [filename] |}
            (root_references w filename b);
    Returns {| already_seen := {[ key_of b ]} ∪ already_seen st';
               results := results st';
               rpaths_by_binary := rpaths_by_binary st';
               parents_by_filename := parents_by_filename st';
               todo := todo st';
               trace := trace st' |}.
Proof.
  intros Hfuel. unfold process, start. cbn [fst snd of_parse].
  rewrite !get_uniqueness_key_binary. cbn [mbind outcome_bind already_seen].
  rewrite bool_decide_eq_false_2 by apply not_elem_of_empty.
  cbn [parents_by_filename rpaths_by_binary results todo trace].
  rewrite pe_parent_loop_root by done.
  assert (Hhost : (if bool_decide (format b = PE)
                   then Returns (if Py.truthy filename &&
                                    bool_decide (codefile_type w (FileName filename)
                                                 = Some "EXEfile")
                                 then Some (OsPath.dirname filename) else None)
                   else Returns (Some (OsPath.dirname filename)))
                  = Returns (root_host_dir w filename b)).
  { unfold root_host_dir. by destruct (bool_decide (format b = PE)). }
  rewrite Hhost. cbn [mbind outcome_bind].
  rewrite (transitive_loop_root fuel _
             (get_rpaths w (FileObj (ObjBinary b)) (root_host_dir w filename b)
                (Py.replace (envroot opts) OsPath.sep "/") (sysroot opts)))
    by (done || apply lookup_insert_eq).
  unfold getitem. rewrite lookup_insert_eq.
  assert (Hrt : (if bool_decide (format b = PE)
                 then Returns (get_rpaths w (FileObj (ObjBinary b)) (root_host_dir w filename b)
                                 (Py.replace (envroot opts) OsPath.sep "/") (sysroot opts))
                 else Returns (if Py.truthy filename
                               then get_rpaths w (FileObj (ObjBinary b))
                                      (root_host_dir w filename b)
                                      (Py.replace (envroot opts) OsPath.sep "/") (sysroot opts)
                               else []))
                = Returns (root_search_paths w opts filename b)).
  { unfold root_search_paths.
    destruct (bool_decide (format b = PE)); [done|]. cbn [orb].
    by destruct (Py.truthy filename). }
  rewrite Hrt. cbn [mbind outcome_bind].
  rewrite insert_empty. reflexivity.
Qed.

(** Where the turn of the loop on the root returns, its result is the
    root's direct linkages. *)
Lemma process_root_results (fuel : nat) (st1 : walk_state) :
  process w opts fuel (OsPath.dirname filename) (default_paths_of b)
    (filename, Some b) start = Returns st1 ->
  results st1 = direct_linkages w opts filename b.
Proof.
  intros H.
  assert (Hbig : process w opts (fuel `max` 2) (OsPath.dirname filename) (default_paths_of b)
                   (filename, Some b) start = Returns st1).
  { rewrite <- H. apply process_mono; [lia | by rewrite H]. }
  rewrite process_root_eq in Hbig by lia.
  apply bind_returns in Hbig as (st2 & Hall & Hret).
  injection Hret as <-. apply resolve_all_results in Hall. cbn [results] in *.
  rewrite Hall. unfold direct_linkages. by rewrite (right_id_L ∅ (∪)).
Qed.

(** Without recursion that turn returns and leaves the worklist empty. *)
Lemma process_root_norecurse (fuel : nat) :
  recurse opts = false ->
  2 <= fuel ->
  exists st1,
    process w opts fuel (OsPath.dirname filename) (default_paths_of b)
      (filename, Some b) start = Returns st1
    /\ todo st1 = []
    /\ results st1 = direct_linkages w opts filename b.
Proof.
  intros Hnorec Hfuel.
  destruct (resolve_all_norecurse w opts Hnorec b filename (OsPath.dirname filename)
              (root_search_paths w opts filename b) (default_paths_of b)
              (root_references w filename b)
              {| already_seen := ∅; results := ∅;
                 rpaths_by_binary :=
                   {[ filename := get_rpaths w (FileObj (ObjBinary b))
                                    (root_host_dir w filename b)
                                    (Py.replace (envroot opts) OsPath.sep "/")
                                    (sysroot opts) ]};
                 parents_by_filename := {[filename := None]};
                 todo := []; trace := [filename] |})
    as (st2 & Hall & _ & Htodo).
  eexists. split; [|split].
  - rewrite process_root_eq by done. rewrite Hall. reflexivity.
  - exact Htodo.
  - eapply process_root_results. rewrite process_root_eq by done.
    rewrite Hall. reflexivity.
Qed.

End Direct.

(** The root's direct references are always in the result: whenever the
    walk returns, with or without recursion, the returned set holds the
    record of every library reference of the root, resolved against the
    root's own search paths. *)
Theorem direct_references_in_result (w : World) (opts : walk_options)
    (fuel : nat) (filename : string) (b : Binary) (st : walk_state) :
  lief_parse w filename = Parsed b ->
  walk w opts fuel filename = Returns st ->
  direct_linkages w opts filename b ⊆ results st.
Proof.
  intros Hparse H. unfold walk in H. rewrite Hparse in H.
  destruct fuel as [|fuel]; [done|].
  cbn [while_todo todo for_todo] in H. cbn [lookup list_lookup] in H.
  apply bind_returns in H as (st2 & Hfor & Hwhile).
  apply bind_returns in Hfor as (st1 & Hroot & Hfor).
  unfold pop0 in Hroot. cbn [already_seen results rpaths_by_binary parents_by_filename
                             todo trace tail] in Hroot.
  apply process_root_results in Hroot.
  apply for_todo_results_grow in Hfor. apply while_todo_results_grow in Hwhile.
  rewrite <- Hroot. by etrans.
Qed.

Lemma direct_references_in_result_witness :
  exists st,
    walk (world_of wide_diamond) default_options 20 "/opt/bin/A" = Returns st
    /\ direct_linkages (world_of wide_diamond) default_options "/opt/bin/A"
         (root ["libB.so"; "libX.so"; "libC.so"; "libY.so"; "libW.so"; "libZ.so"]).2
       ⊆ results st.
Proof.
  eexists. split; [vm_compute; reflexivity|].
  apply (direct_references_in_result (world_of wide_diamond) default_options 20 "/opt/bin/A").
  - reflexivity.
  - vm_compute. reflexivity.
Defined.

(** Without recursion the walk is one turn of the loop: with
    [recurse=False] and fuel for two turns, [inspect_linkages_lief] on a
    root that parses returns, and what it returns is exactly the root's
    direct linkages. *)
Theorem walk_without_recursion (w : World) (opts : walk_options)
    (fuel : nat) (filename : string) (b : Binary) :
  recurse opts = false ->
  lief_parse w filename = Parsed b ->
  2 <= fuel ->
  inspect_linkages_lief w opts fuel filename
  = Returns (direct_linkages w opts filename b).
Proof.
  intros Hnorec Hparse Hfuel. unfold inspect_linkages_lief, walk. rewrite Hparse.
  destruct fuel as [|fuel]; [lia|].
  cbn [while_todo todo for_todo]. cbn [lookup list_lookup].
  unfold pop0. cbn [already_seen results rpaths_by_binary parents_by_filename
                    todo trace tail].
  destruct (process_root_norecurse w opts filename b (S fuel) Hnorec Hfuel)
    as (st1 & Hroot & Htodo & Hres).
  rewrite Hroot. cbn [mbind outcome_bind].
  destruct fuel as [|fuel]; [lia|].
  cbn [for_todo]. rewrite Htodo. cbn [lookup list_lookup mbind outcome_bind].
  cbn [while_todo]. rewrite Htodo. cbn [mbind outcome_bind]. by rewrite Hres.
Qed.

Lemma walk_without_recursion_witness :
  inspect_linkages_lief (world_of order_BC)
    {| resolve_filenames := true; recurse := false; sysroot := ""; envroot := "" |}
    2 "/opt/bin/A"
  = Returns (direct_linkages (world_of order_BC)
               {| resolve_filenames := true; recurse := false; sysroot := ""; envroot := "" |}
               "/opt/bin/A" (root ["libB.so"; "libC.so"]).2).
Proof.
  apply (walk_without_recursion (world_of order_BC)); [reflexivity | reflexivity | lia].
Defined.

(** ** Walking without resolving file names *)

Section NamesOnly.

Context (w : World) (opts : walk_options) (filename : string).
Hypothesis Hnames : resolve_filenames opts = false.
Hypothesis Hempty : os_path_exists w "" = false.

Lemma exists_truthy (p : string) : os_path_exists w p = true -> Py.truthy p = true.
Proof.
  intros Hp. unfold Py.truthy. destruct (String.eqb_spec p ""); [|done].
  subst p. congruence.
Qed.

Lemma resolve_one_names_only (binary : Binary) (filename2 exedir : string)
    (rpaths_transitive default_paths : list string) (st st' : walk_state) (orig : string) :
  resolve_one w opts binary filename2 exedir rpaths_transitive default_paths st orig
  = Returns st' ->
  parents_by_filename st' = parents_by_filename st
  /\ trace st' = trace st
  /\ (Forall (fun e : string * option Binary => e.1 = filename \/ Py.truthy e.1 = true)
        (todo st) ->
      Forall (fun e : string * option Binary => e.1 = filename \/ Py.truthy e.1 = true)
        (todo st')).
Proof.
  unfold resolve_one. rewrite Hnames.
  set (r0 := (_get_resolved_location w binary orig exedir exedir rpaths_transitive
                "" default_paths (sysroot opts) None).1.1).
  destruct (recurse opts && os_path_exists w r0) eqn:Hrec.
  - apply andb_true_iff in Hrec as [_ Hex]. apply exists_truthy in Hex.
    destruct (lief_parse w r0) as [b'| |]; [| |done];
      intros [= <-]; cbn [parents_by_filename trace todo];
      (split; [done | split; [done|]]); intros Htodo;
      apply Forall_app; (split; [done|]); apply Forall_singleton; by right.
  - by intros [= <-].
Qed.

Lemma resolve_all_names_only (binary : Binary) (filename2 exedir : string)
    (rpaths_transitive default_paths : list string) (these_orig : list string) :
  forall st st' : walk_state,
    resolve_all w opts binary filename2 exedir rpaths_transitive default_paths st these_orig
    = Returns st' ->
    parents_by_filename st' = parents_by_filename st
    /\ trace st' = trace st
    /\ (Forall (fun e : string * option Binary => e.1 = filename \/ Py.truthy e.1 = true)
          (todo st) ->
        Forall (fun e : string * option Binary => e.1 = filename \/ Py.truthy e.1 = true)
          (todo st')).
Proof.
  induction these_orig as [|orig rest IH]; intros st st' H.
  - by injection H as <-.
  - cbn [resolve_all] in H. apply bind_returns in H as (st1 & H1 & H2).
    apply resolve_one_names_only in H1 as (Hp1 & Ht1 & Hq1).
    apply IH in H2 as (Hp2 & Ht2 & Hq2).
    split; [congruence | split; [congruence | auto]].
Qed.

(** A file other than the root has no entry in the parent map: the first
    step up its parent chain raises [KeyError]. *)
Lemma pe_parent_loop_child (fuel : nat) (f : string) :
  f <> filename -> Py.truthy f = true ->
  pe_parent_loop w (S fuel) {[filename := None]} (Some f) None = Raises KeyError.
Proof.
  intros Hne Htruthy. cbn [pe_parent_loop Py.truthy_opt].
  change (default "" (Some f)) with f. rewrite Htruthy.
  unfold getitem. by rewrite lookup_singleton_ne.
Qed.

Lemma transitive_loop_child (fuel : nat) (rpaths : gmap string (list string)) (f : string)
    (own : list string) :
  f <> filename -> Py.truthy f = true -> rpaths !! f = Some own ->
  transitive_loop (S fuel) rpaths {[filename := None]} (Some f) [] = Raises KeyError.
Proof.
  intros Hne Htruthy Hown. cbn [transitive_loop Py.truthy_opt].
  change (default "" (Some f)) with f. rewrite Htruthy.
  unfold getitem. rewrite Hown. cbn [mbind outcome_bind].
  by rewrite lookup_singleton_ne.
Qed.

(** The turn of the loop on a file other than the root, not seen before:
    [KeyError]. *)
Lemma process_child_raises (fuel : nat) (exedir : string) (default_paths : list string)
    (f : string) (binary : Binary) (st : walk_state) :
  parents_by_filename st = {[filename := None]} ->
  f <> filename -> Py.truthy f = true ->
  key_of binary ∉ already_seen st ->
  process w opts (S fuel) exedir default_paths (f, Some binary) st = Raises KeyError.
Proof.
  intros Hparents Hne Htruthy Hkey. unfold process. cbn [fst snd of_parse].
  rewrite get_uniqueness_key_binary. cbn [mbind outcome_bind].
  rewrite bool_decide_eq_false_2 by done. rewrite Hparents.
  destruct (bool_decide (format binary = PE)).
  - by rewrite pe_parent_loop_child.
  - cbn [mbind outcome_bind].
    by rewrite (transitive_loop_child fuel _ f _ Hne Htruthy (lookup_insert_eq _ _ _)).
Qed.

Lemma process_names_only (fuel : nat) (exedir : string) (default_paths : list string)
    (element : string * option Binary) (st st' : walk_state) :
  element.1 = filename \/ Py.truthy element.1 = true ->
  names_only_inv filename st ->
  process w opts fuel exedir default_paths element st = Returns st' ->
  names_only_inv filename st'.
Proof.
  intros Hel (Hparents & Htodo & Htrace) H.
  destruct element as [f [binary|]]; cbn [fst] in Hel;
    [|unfold process in H; by apply bind_returns in H as (? & ? & ?)].
  destruct (decide (key_of binary ∈ already_seen st)) as [Hseen|Hnew].
  { unfold process in H. cbn [fst snd of_parse] in H.
    rewrite get_uniqueness_key_binary in H. cbn [mbind outcome_bind] in H.
    rewrite bool_decide_eq_true_2 in H by done. by injection H as <-. }
  destruct (decide (f = filename)) as [->|Hne].
  - unfold process in H. cbn [fst snd of_parse] in H.
    rewrite get_uniqueness_key_binary in H. cbn [mbind outcome_bind] in H.
    rewrite bool_decide_eq_false_2 in H by done.
    apply bind_returns in H as (p & _ & H).
    apply bind_returns in H as (rt & _ & H).
    apply bind_returns in H as (st2 & Hall & H). injection H as <-.
    apply resolve_all_names_only in Hall as (Hp & Ht & Hq).
    cbn [parents_by_filename trace todo] in *.
    unfold names_only_inv. cbn [parents_by_filename trace todo].
    split; [congruence | split; [by apply Hq|]].
    rewrite Ht. apply Forall_app. split; [done | by apply Forall_singleton].
  - destruct Hel as [?|Htruthy]; [done|].
    destruct fuel as [|fuel].
    + unfold process in H. cbn [fst snd of_parse] in H.
      rewrite get_uniqueness_key_binary in H. cbn [mbind outcome_bind] in H.
      rewrite bool_decide_eq_false_2 in H by done.
      destruct (bool_decide (format binary = PE)); [done|].
      by cbn [mbind outcome_bind transitive_loop] in H.
    + by rewrite process_child_raises in H.
Qed.

Lemma for_todo_names_only (exedir : string) (default_paths : list string) (fuel : nat) :
  forall (i : nat) (st st' : walk_state),
    names_only_inv filename st ->
    for_todo w opts fuel exedir default_paths i st = Returns st' ->
    names_only_inv filename st'.
Proof.
  induction fuel as [|fuel IH]; intros i st st' Hinv H; [done|].
  cbn [for_todo] in H. destruct (todo st !! i) as [element|] eqn:Hi;
    [|by injection H as <-].
  apply bind_returns in H as (st1 & H1 & H2).
  apply (IH (S i) st1); [|done].
  destruct Hinv as (Hparents & Htodo & Htrace).
  apply (process_names_only (S fuel) exedir default_paths element (pop0 st)); [| |done].
  - rewrite Forall_forall in Htodo. apply Htodo. by eapply list_elem_of_lookup_2.
  - split; [done | split; [|done]]. cbn [pop0 todo].
    destruct (todo st); [done|]. by apply Forall_cons in Htodo as [_ ?].
Qed.

Lemma while_todo_names_only (exedir : string) (default_paths : list string) (fuel : nat) :
  forall st st' : walk_state,
    names_only_inv filename st ->
    while_todo w opts fuel exedir default_paths st = Returns st' ->
    names_only_inv filename st'.
Proof.
  induction fuel as [|fuel IH]; intros st st' Hinv H; [done|].
  cbn [while_todo] in H. destruct (todo st) as [|e rest] eqn:Htodo;
    [by injection H as <-|].
  apply bind_returns in H as (st1 & H1 & H2).
  apply (IH st1); [|done].
  by apply (for_todo_names_only exedir default_paths (S fuel) 0 st).
Qed.

End NamesOnly.

(** With [resolve_filenames=False] the parent map is never filled, so the
    walker cannot climb from a dependency to the root: whenever the walk
    returns, the root is the only file whose references were resolved, and
    the turn of the loop on any other file not seen before raises
    [KeyError]. *)
Theorem names_only_stops_at_root (w : World) (opts : walk_options)
    (fuel : nat) (filename : string) (st : walk_state) :
  resolve_filenames opts = false ->
  os_path_exists w "" = false ->
  walk w opts fuel filename = Returns st ->
  forall f, f ∈ trace st -> f = filename.
Proof.
  intros Hnames Hempty H. unfold walk in H.
  destruct (lief_parse w filename) as [binary| |]; [|done|done].
  apply (while_todo_names_only w opts filename Hnames Hempty) in H as (_ & _ & Htrace).
  - by apply Forall_forall.
  - split; [done | split; [|apply Forall_nil_2]].
    apply Forall_singleton. by left.
Qed.

Lemma names_only_stops_at_root_witness :
  exists st,
    walk (world_of [root ["libB.so"]]) names_only 10 "/opt/bin/A" = Returns st
    /\ forall f, f ∈ trace st -> f = "/opt/bin/A".
Proof.
  eexists. split; [vm_compute; reflexivity|].
  apply (names_only_stops_at_root (world_of [root ["libB.so"]]) names_only 10 "/opt/bin/A");
    [reflexivity | reflexivity | vm_compute; reflexivity].
Defined.

(** A root with one dependency that exists: the walk raises. *)
Example names_only_walk_raises :
  inspect_linkages_lief (world_of one_dependency) names_only 10 "/opt/bin/A"
  = Raises KeyError.
Proof. vm_compute. reflexivity. Qed.

(** ** Libraries that need each other *)

Section Cycle.

Context (rpaths : gmap string (list string)) (parents : gmap string (option string)).

(** One step up the parent chain towards a chain that never ends. *)
Lemma transitive_loop_step (f : string) (next : option string) :
  Py.truthy f = true ->
  is_Some (rpaths !! f) ->
  parents !! f = Some next ->
  (forall fuel acc, transitive_loop fuel rpaths parents next acc = OutOfFuel) ->
  forall fuel acc, transitive_loop fuel rpaths parents (Some f) acc = OutOfFuel.
Proof.
  intros Htruthy [own Hown] Hnext Hdiv fuel acc. destruct fuel as [|fuel]; [done|].
  cbn [transitive_loop Py.truthy_opt]. change (default "" (Some f)) with f.
  rewrite Htruthy. unfold getitem. rewrite Hown, Hnext. cbn [mbind outcome_bind].
  apply Hdiv.
Qed.

(** Two files that are each other's parent: the climb never ends. *)
Lemma transitive_loop_cycle (f g : string) :
  Py.truthy f = true -> Py.truthy g = true ->
  is_Some (rpaths !! f) -> is_Some (rpaths !! g) ->
  parents !! f = Some (Some g) -> parents !! g = Some (Some f) ->
  forall fuel acc, transitive_loop fuel rpaths parents (Some f) acc = OutOfFuel.
Proof.
  intros Hf Hg [ownf Hownf] [owng Howng] Hpf Hpg fuel.
  assert (Hboth : forall acc,
             transitive_loop fuel rpaths parents (Some f) acc = OutOfFuel
             /\ transitive_loop fuel rpaths parents (Some g) acc = OutOfFuel).
  { induction fuel as [|fuel IH]; intros acc; [done|].
    cbn [transitive_loop Py.truthy_opt].
    change (default "" (Some f)) with f. change (default "" (Some g)) with g.
    rewrite Hf, Hg. unfold getitem. rewrite Hownf, Howng, Hpf, Hpg.
    cbn [mbind outcome_bind]. split; apply IH. }
  intros acc. apply Hboth.
Qed.

End Cycle.

(** The turn of the loop on a file, not PE and not seen before, whose
    parent chain runs into such a cycle: no fuel is enough. *)
Lemma process_diverges (w : World) (opts : walk_options) (exedir : string)
    (default_paths : list string) (f g h : string) (binary : Binary) (st : walk_state) :
  format binary <> PE ->
  key_of binary ∉ already_seen st ->
  Py.truthy f = true -> Py.truthy g = true -> Py.truthy h = true ->
  f <> g -> f <> h ->
  is_Some (rpaths_by_binary st !! g) -> is_Some (rpaths_by_binary st !! h) ->
  parents_by_filename st !! f = Some (Some g) ->
  parents_by_filename st !! g = Some (Some h) ->
  parents_by_filename st !! h = Some (Some g) ->
  forall fuel,
    process w opts fuel exedir default_paths (f, Some binary) st = OutOfFuel.
Proof.
  intros Hfmt Hkey Hf Hg Hh Hfg Hfh Hrg Hrh Hpf Hpg Hph fuel.
  unfold process. cbn [fst snd of_parse]. rewrite get_uniqueness_key_binary.
  cbn [mbind outcome_bind]. rewrite bool_decide_eq_false_2 by done.
  rewrite (bool_decide_eq_false_2 (format binary = PE)) by done.
  cbn [mbind outcome_bind].
  rewrite transitive_loop_step with (next := Some g); [done | done | | done |].
  - rewrite lookup_insert_eq. by eexists.
  - apply transitive_loop_cycle with (g := h); try done.
    + by rewrite lookup_insert_ne.
    + by rewrite lookup_insert_ne.
Qed.

Section Stepping.

Context (w : World) (opts : walk_options) (exedir : string) (default_paths : list string).

(** One turn of [for element in todo] whose body returns within [k] turns. *)
Lemma for_todo_turn (k n i : nat) (st st1 : walk_state) (element : string * option Binary) :
  todo st !! i = Some element ->
  process w opts k exedir default_paths element (pop0 st) = Returns st1 ->
  k <= S n ->
  for_todo w opts (S n) exedir default_paths i st
  = for_todo w opts n exedir default_paths (S i) st1.
Proof.
  intros Hi Hp Hk. cbn [for_todo]. rewrite Hi.
  rewrite (process_mono w opts exedir default_paths element (pop0 st) k (S n) Hk)
    by (by rewrite Hp).
  by rewrite Hp.
Qed.

(** The iterator is past the end of the list. *)
Lemma for_todo_stop (n i : nat) (st : walk_state) :
  todo st !! i = None ->
  for_todo w opts (S n) exedir default_paths i st = Returns st.
Proof. intros Hi. cbn [for_todo]. by rewrite Hi. Qed.

(** A turn whose body never returns. *)
Lemma for_todo_diverges (n i : nat) (st : walk_state) (element : string * option Binary) :
  todo st !! i = Some element ->
  (forall fuel, process w opts fuel exedir default_paths element (pop0 st) = OutOfFuel) ->
  for_todo w opts n exedir default_paths i st = OutOfFuel.
Proof.
  intros Hi Hdiv. destruct n as [|n]; [done|]. cbn [for_todo]. by rewrite Hi, Hdiv.
Qed.

Lemma while_todo_turn (n : nat) (st : walk_state) :
  todo st <> [] ->
  while_todo w opts (S n) exedir default_paths st
  = st' ← for_todo w opts (S n) exedir default_paths 0 st;
    while_todo w opts n exedir default_paths st'.
Proof. intros Hne. cbn [while_todo]. by destruct (todo st). Qed.

End Stepping.

(** One turn of the loop on a concrete state: the state it returns gets
    the name [st']. *)
Ltac turn st' :=
  match goal with
  | |- context [for_todo ?W ?O (S ?n) ?e ?d ?i ?st] =>
      let el := eval vm_compute in (default ("", None) (todo st !! i)) in
      pose (st' := returned_or st (process W O 4 e d el (pop0 st)));
      rewrite (for_todo_turn W O e d 4 n i st st' el)
        by (vm_compute; reflexivity || lia)
  end.

(** The walk need not end.  In [mutual] the libraries B and C need each
    other, so each becomes the other's parent; the climb up the parent chain
    from E, which C needs, then never reaches a file without a parent: for
    every fuel [inspect_linkages_lief] is still running. *)
Theorem mutual_never_returns (fuel : nat) :
  inspect_linkages_lief (world_of mutual) default_options fuel "/opt/bin/A" = OutOfFuel.
Proof.
  do 7 (destruct fuel as [|fuel]; [vm_compute; reflexivity|]).
  unfold inspect_linkages_lief, walk.
  replace (lief_parse (world_of mutual) "/opt/bin/A")
    with (Parsed (root ["libX.so"; "libB.so"]).2) by (vm_compute; reflexivity).
  match goal with
  | |- context [while_todo _ _ _ _ _ ?st] => set (st0 := st)
  end.
  rewrite while_todo_turn by discriminate.
  turn st1. turn st2. turn st3.
  rewrite for_todo_stop by (vm_compute; reflexivity).
  cbn [mbind outcome_bind].
  rewrite while_todo_turn by (vm_compute; discriminate).
  turn st4. turn st5.
  rewrite for_todo_stop by (vm_compute; reflexivity).
  cbn [mbind outcome_bind].
  rewrite while_todo_turn by (vm_compute; discriminate).
  turn st6.
  rewrite for_todo_stop by (vm_compute; reflexivity).
  cbn [mbind outcome_bind].
  rewrite while_todo_turn by (vm_compute; discriminate).
  erewrite for_todo_diverges; [reflexivity | vm_compute; reflexivity |].
  apply (process_diverges _ _ _ _ _ "/opt/lib/libC.so" "/opt/lib/libB.so").
  - discriminate.
  - match goal with
    | |- ?x ∉ ?X => apply (proj1 (bool_decide_eq_false (x ∈ X)))
    end. vm_compute. reflexivity.
  - reflexivity.
  - reflexivity.
  - reflexivity.
  - discriminate.
  - discriminate.
  - eexists. vm_compute. reflexivity.
  - eexists. vm_compute. reflexivity.
  - vm_compute. reflexivity.
  - vm_compute. reflexivity.
  - vm_compute. reflexivity.
Qed.
